(** * Streak correction job of the Happy Sprout journey app

    Shallow embedding of [src/utils/streakCorrection.ts]
    ([correctExistingStreakCounts]) together with the parts of its two
    collaborators that decide its behaviour: the date-fns functions it
    imports and the two Supabase calls it awaits. *)

From Stdlib Require Import ZArith List String Ascii Bool Lia.
From Stdlib Require Import DecimalString.
Import ListNotations.
Local Open Scope string_scope.
Local Open Scope Z_scope.

(** ** date-fns

    A JavaScript [Date] is a number of milliseconds since the epoch, or the
    Invalid Date.  The functions below follow the date-fns implementation
    ([startOfDay], [differenceInCalendarDays], [compareLocalAsc],
    [differenceInDays], [isSameDay], [subDays], [isYesterday]); they read
    the local calendar fields of their arguments, so the local zone is a
    parameter: a fixed offset [tz] in milliseconds, local wall-clock time
    being UTC time plus [tz]. *)

Module DateFns.

Definition Date : Type := option Z.

Definition MILLISECONDS_IN_DAY : Z := 86400000.

Section LocalZone.

Variable tz : Z.

(** Local wall-clock reading of an instant, in milliseconds. *)
Definition localMs (t : Z) : Z := t + tz.

(** Index of the local calendar day an instant falls on. *)
Definition dayNumber (t : Z) : Z := localMs t / MILLISECONDS_IN_DAY.

(** Milliseconds elapsed since local midnight. *)
Definition timeOfDay (t : Z) : Z := localMs t mod MILLISECONDS_IN_DAY.

(** [date.setHours(0, 0, 0, 0)]. *)
Definition startOfDayMs (t : Z) : Z := t - timeOfDay t.

Definition startOfDay (d : Date) : Date := option_map startOfDayMs d.

(** Lexicographic comparison of the local year, month, day, hours, minutes,
    seconds and milliseconds: the sign of the difference of the local
    readings. *)
Definition compareLocalAsc (dateLeft dateRight : Z) : Z :=
  Z.sgn (localMs dateLeft - localMs dateRight).

(** The difference of the two local midnights, in days; in a zone with a
    fixed offset it is a whole number before [Math.round] is applied. *)
Definition differenceInCalendarDaysMs (dateLeft dateRight : Z) : Z :=
  (localMs (startOfDayMs dateLeft) - localMs (startOfDayMs dateRight))
  / MILLISECONDS_IN_DAY.

(** [date.setDate(date.getDate() - n)]: same local time of day, [n] days
    earlier. *)
Definition setDateBack (t n : Z) : Z := t - n * MILLISECONDS_IN_DAY.

(** Number of full days between two instants, as date-fns computes it. *)
Definition differenceInDaysMs (dateLeft dateRight : Z) : Z :=
  let sign := compareLocalAsc dateLeft dateRight in
  let difference := Z.abs (differenceInCalendarDaysMs dateLeft dateRight) in
  let dateLeft' := setDateBack dateLeft (sign * difference) in
  let isLastDayNotFull :=
    if compareLocalAsc dateLeft' dateRight =? - sign then 1 else 0 in
  sign * (difference - isLastDayNotFull).

(** On an Invalid Date the result is [NaN], here [None]. *)
Definition differenceInDays (dateLeft dateRight : Date) : option Z :=
  match dateLeft, dateRight with
  | Some l, Some r => Some (differenceInDaysMs l r)
  | _, _ => None
  end.

Definition isSameDayMs (dateLeft dateRight : Z) : bool :=
  startOfDayMs dateLeft =? startOfDayMs dateRight.

Definition subDaysMs (t amount : Z) : Z := setDateBack t amount.

(** [isYesterday(date)] with the clock reading [now]. *)
Definition isYesterdayMs (now date : Z) : bool :=
  isSameDayMs date (subDaysMs now 1).

End LocalZone.

End DateFns.

Import DateFns.

(** ** The [child_progress] table *)

(** A row as [select('*')] returns it.  The job reads [child_id],
    [last_check_in] and [streak_count]; the remaining columns travel along
    as name/value pairs. *)
Record ChildProgress : Type := {
  child_id : string;
  last_check_in : option string;
  streak_count : Z;
  other_columns : list (string * string)
}.

(** The row after [update({ streak_count: 0 })]. *)
Definition with_streak_count_0 (r : ChildProgress) : ChildProgress :=
  {| child_id := child_id r;
     last_check_in := last_check_in r;
     streak_count := 0;
     other_columns := other_columns r |}.

(** ** Exceptions and the Supabase client *)

(** A thrown JavaScript value: an [Error] instance with its message, or
    anything else. *)
Inductive Thrown : Type :=
| ThrownError (message : string)
| ThrownOther.

Inductive Completion (A : Type) : Type :=
| Normal (a : A)
| Throw (e : Thrown).
Arguments Normal {A} a.
Arguments Throw {A} e.

(** How the backend answers an awaited query: it carries the query out, it
    reports a [PostgrestError], or the promise rejects. *)
Inductive Reply : Type :=
| Fulfils
| ReportsError (message : string)
| Rejects (e : Thrown).

Record Network : Type := {
  selectReply : Reply;
  updateReply : Reply
}.

(** The two queries the job sends. *)
Inductive Request : Type :=
| SelectStreakCountGt0
| UpdateStreakCount0In (ids : list string).

(** The backend: the table and the log of the queries it has received. *)
Record Supabase : Type := {
  child_progress : list ChildProgress;
  requests : list Request
}.

(** The [{ data, error }] pair a query resolves to; [error] holds the
    [message] of the [PostgrestError]. *)
Module Postgrest.
Record Response (A : Type) : Type := {
  data : option A;
  error : option string
}.
Arguments data {A} r.
Arguments error {A} r.
End Postgrest.

(** Computations that talk to the backend and may throw. *)
Definition Job (A : Type) : Type := Supabase -> Completion A * Supabase.

Definition ret {A : Type} (a : A) : Job A := fun db => (Normal a, db).

Definition bind {A B : Type} (m : Job A) (k : A -> Job B) : Job B :=
  fun db =>
    match m db with
    | (Normal a, db') => k a db'
    | (Throw e, db') => (Throw e, db')
    end.

Definition lift {A : Type} (c : Completion A) : Job A := fun db => (c, db).

Notation "x <- m ;; k" := (bind m (fun x => k))
  (at level 61, m at next level, right associativity).

Definition received (q : Request) (db : Supabase) : Supabase :=
  {| child_progress := child_progress db; requests := requests db ++ [q] |}.

(** [.in('child_id', ids)] *)
Definition child_id_in (ids : list string) (r : ChildProgress) : bool :=
  existsb (String.eqb (child_id r)) ids.

(** [.gt('streak_count', 0)] *)
Definition streak_count_gt_0 (r : ChildProgress) : bool := 0 <? streak_count r.

(** [supabase.from('child_progress').select('*').gt('streak_count', 0)] *)
Definition select_gt_streak_count_0 (net : Network)
  : Job (Postgrest.Response (list ChildProgress)) :=
  fun db =>
    let db' := received SelectStreakCountGt0 db in
    match selectReply net with
    | Fulfils =>
        (Normal {| Postgrest.data := Some (filter streak_count_gt_0 (child_progress db));
                   Postgrest.error := None |}, db')
    | ReportsError m => (Normal {| Postgrest.data := None; Postgrest.error := Some m |}, db')
    | Rejects e => (Throw e, db')
    end.

(** The table after [update({ streak_count: 0 }).in('child_id', ids)] has
    been carried out. *)
Definition reset_in (ids : list string) (rows : list ChildProgress)
  : list ChildProgress :=
  map (fun r => if child_id_in ids r then with_streak_count_0 r else r) rows.

(** [supabase.from('child_progress').update({ streak_count: 0 })
      .in('child_id', ids)]: one statement, carried out on every matching
    row or, when the backend reports an error or the call rejects, on
    none. *)
Definition update_streak_count_0_in (net : Network) (ids : list string)
  : Job (Postgrest.Response unit) :=
  fun db =>
    let q := UpdateStreakCount0In ids in
    match updateReply net with
    | Fulfils =>
        (Normal {| Postgrest.data := None; Postgrest.error := None |},
         {| child_progress := reset_in ids (child_progress db);
            requests := requests db ++ [q] |})
    | ReportsError m => (Normal {| Postgrest.data := None; Postgrest.error := Some m |}, received q db)
    | Rejects e => (Throw e, received q db)
    end.

(** ** The job *)

(** The object [correctExistingStreakCounts] resolves to. *)
Record Result : Type := {
  success : bool;
  message : option string;
  resetChildren : option (list string);
  error : option string
}.

Definition failure (msg : string) : Result :=
  {| success := false; message := None; resetChildren := None;
     error := Some msg |}.

(** [`... ${n} ...`] for a length. *)
Definition decimal (n : nat) : string := NilEmpty.string_of_uint (Nat.to_uint n).

(** [{ success: true, message: "No streak count corrections needed" }] *)
Definition noCorrections : Result :=
  {| success := true;
     message := Some "No streak count corrections needed";
     resetChildren := None;
     error := None |}.

(** The object returned after a batched update of [ids]. *)
Definition corrected (ids : list string) : Result :=
  {| success := true;
     message := Some ("Reset streak counts for " ++ decimal (List.length ids)
                      ++ " children who missed check-ins")%string;
     resetChildren := Some ids;
     error := None |}.

(** [Date.prototype.toISOString] throws a [RangeError] on the Invalid
    Date; the text it returns otherwise only reaches the console. *)
Definition toISOString (d : Date) : Completion unit :=
  match d with
  | Some _ => Normal tt
  | None => Throw (ThrownError "Invalid time value")
  end.

(** [daysElapsed > 1] on a JavaScript number; the comparison is false on
    [NaN]. *)
Definition number_gt (x : option Z) (n : Z) : bool :=
  match x with
  | Some v => n <? v
  | None => false
  end.

Section Job.

(** The local zone, date-fns's [parseISO], the backend's behaviour and the
    reading of the clock at [new Date()]. *)
Variable tz : Z.
Variable parseISO : string -> Date.
Variable net : Network.
Variable today : Z.

Definition todayStartOfDay : Date := startOfDay tz (Some today).

(** The [for (const child of childProgress || [])] loop; [childrenToUpdate]
    is the array it pushes to.  [!child.last_check_in] holds on [null] and
    on the empty string.  The template string of the logging statement
    calls [toISOString] on the parsed date, after [daysElapsed] has been
    computed and before it is compared. *)
Fixpoint identify (children : list ChildProgress) (childrenToUpdate : list string)
  : Completion (list string) :=
  match children with
  | [] => Normal childrenToUpdate
  | child :: rest =>
      match last_check_in child with
      | None => identify rest (childrenToUpdate ++ [child_id child])
      | Some s =>
          if String.eqb s "" then
            identify rest (childrenToUpdate ++ [child_id child])
          else
            let lastCheckInDate := parseISO s in
            let daysElapsed := differenceInDays tz todayStartOfDay lastCheckInDate in
            match toISOString lastCheckInDate with
            | Throw e => Throw e
            | Normal _ =>
                if number_gt daysElapsed 1 then
                  identify rest (childrenToUpdate ++ [child_id child])
                else identify rest childrenToUpdate
            end
      end
  end.

(** The body of the [try] block. *)
Definition body : Job Result :=
  fetched <- select_gt_streak_count_0 net ;;
  match Postgrest.error fetched with
  | Some msg => ret (failure msg)
  | None =>
      let childProgress := match Postgrest.data fetched with Some rows => rows | None => [] end in
      childrenToUpdate <- lift (identify childProgress []) ;;
      if (0 <? Z.of_nat (List.length childrenToUpdate)) then
        updated <- update_streak_count_0_in net childrenToUpdate ;;
        match Postgrest.error updated with
        | Some msg => ret (failure msg)
        | None =>
            ret (corrected childrenToUpdate)
        end
      else ret noCorrections
  end.

(** [error instanceof Error ? error.message : "Unknown error occurred"] *)
Definition caught (e : Thrown) : Result :=
  failure (match e with
           | ThrownError msg => msg
           | ThrownOther => "Unknown error occurred"
           end).

(** [try { body } catch (error) { return caught(error) }] *)
Definition correctExistingStreakCounts (db : Supabase) : Result * Supabase :=
  match body db with
  | (Normal r, db') => (r, db')
  | (Throw e, db') => (caught e, db')
  end.

End Job.

(** ** What the loop decides, row by row *)

Section Judgements.

Variable tz : Z.
Variable parseISO : string -> Date.
Variable today : Z.

(** The date the loop compares with, for a row whose [last_check_in] is
    truthy. *)
Definition lastCheckInDate (r : ChildProgress) : option Date :=
  match last_check_in r with
  | None => None
  | Some s => if String.eqb s "" then None else Some (parseISO s)
  end.

(** The row's identifier is pushed to [childrenToUpdate]. *)
Definition needsReset (r : ChildProgress) : bool :=
  match lastCheckInDate r with
  | None => true
  | Some d => number_gt (differenceInDays tz (todayStartOfDay tz today) d) 1
  end.

(** The row gets past the logging statement. *)
Definition readable (r : ChildProgress) : bool :=
  match lastCheckInDate r with
  | Some None => false
  | _ => true
  end.

(** Loaded by the read and pushed by the loop. *)
Definition classified (r : ChildProgress) : bool :=
  streak_count_gt_0 r && needsReset r.

(** The identifiers collected from a table whose loaded rows are all
    readable. *)
Definition classifiedIds (rows : list ChildProgress) : list string :=
  map child_id (filter classified rows).

(** The specification's [calendarDayDifference(today, lastCheckIn)], with
    both endpoints aligned to local midnight. *)
Definition calendarDayDifference (lastCheckIn : Z) : Z :=
  differenceInCalendarDaysMs tz today lastCheckIn.

(** The specification's rule: reset when [lastCheckIn] is absent or more
    than one calendar day back. *)
Definition staleByCalendar (r : ChildProgress) : bool :=
  match lastCheckInDate r with
  | None => true
  | Some (Some t) => 1 <? calendarDayDifference t
  | Some None => false
  end.

(** [lastCheckIn] falls on the local day of [today]. *)
Definition checkedInToday (r : ChildProgress) : Prop :=
  exists t, lastCheckInDate r = Some (Some t) /\ isSameDayMs tz t today = true.

(** [lastCheckIn] falls on the local day before [today]. *)
Definition checkedInYesterday (r : ChildProgress) : Prop :=
  exists t, lastCheckInDate r = Some (Some t) /\ isYesterdayMs tz today t = true.


(** The invariant the specification expects after a run: a positive
    streak goes with a check-in today or yesterday. *)
Definition streakInvariant (rows : list ChildProgress) : Prop :=
  forall r, In r rows -> 0 < streak_count r ->
    checkedInToday r \/ checkedInYesterday r.

End Judgements.

(** ** A parser for the examples

    [parseISO] stays a parameter of the job.  The examples instantiate it
    with a reader of the two commonest ISO 8601 shapes: [YYYY-MM-DD], read
    as local midnight, and [YYYY-MM-DDTHH:mm:ssZ], read as UTC; anything
    else is the Invalid Date. *)

Module IsoSample.

Definition digit (c : ascii) : option Z :=
  let n := Z.of_nat (nat_of_ascii c) in
  if (48 <=? n) && (n <=? 57) then Some (n - 48) else None.

Fixpoint number (s : string) (acc : Z) : option Z :=
  match s with
  | EmptyString => Some acc
  | String c rest =>
      match digit c with
      | Some d => number rest (10 * acc + d)
      | None => None
      end
  end.

Definition field (s : string) (start len : nat) : option Z :=
  let f := substring start len s in
  if Nat.eqb (String.length f) len then number f 0 else None.

Definition separator (s : string) (pos : nat) (c : string) : bool :=
  String.eqb (substring pos 1 s) c.

Definition isLeapYear (y : Z) : bool :=
  (y mod 4 =? 0) && (negb (y mod 100 =? 0) || (y mod 400 =? 0)).

Definition daysInMonth (y m : Z) : Z :=
  if m =? 2 then (if isLeapYear y then 29 else 28)
  else if (m =? 4) || (m =? 6) || (m =? 9) || (m =? 11) then 30
  else 31.

(** Days from 1970-01-01 to the given civil date. *)
Definition daysFromCivil (y m d : Z) : Z :=
  let y' := if m <=? 2 then y - 1 else y in
  let era := y' / 400 in
  let yoe := y' - era * 400 in
  let mp := (m + 9) mod 12 in
  let doy := (153 * mp + 2) / 5 + d - 1 in
  let doe := yoe * 365 + yoe / 4 - yoe / 100 + doy in
  era * 146097 + doe - 719468.

Definition civil (s : string) : option Z :=
  match field s 0 4, field s 5 2, field s 8 2 with
  | Some y, Some m, Some d =>
      if separator s 4 "-" && separator s 7 "-"
         && (1 <=? m) && (m <=? 12) && (1 <=? d) && (d <=? daysInMonth y m)
      then Some (daysFromCivil y m d * MILLISECONDS_IN_DAY)
      else None
  | _, _, _ => None
  end.

Definition clock (s : string) : option Z :=
  match field s 11 2, field s 14 2, field s 17 2 with
  | Some h, Some mi, Some sec =>
      if separator s 10 "T" && separator s 13 ":" && separator s 16 ":"
         && separator s 19 "Z" && (h <? 24) && (mi <? 60) && (sec <? 60)
      then Some ((h * 60 + mi) * 60000 + sec * 1000)
      else None
  | _, _, _ => None
  end.

Definition parseISO (tz : Z) (s : string) : Date :=
  if Nat.eqb (String.length s) 10 then
    option_map (fun day => day - tz) (civil s)
  else if Nat.eqb (String.length s) 20 then
    match civil s, clock s with
    | Some day, Some ms => Some (day + ms)
    | _, _ => None
    end
  else None.

End IsoSample.

(** ** Sample data

    A clock reading of 2024-03-12T08:30:00Z in a zone at UTC, and rows
    checked in three days back, yesterday, two days back in mid-morning,
    never, and next week. *)

Module Sample.

Definition utc : Z := 0.

Definition today : Z := 1710232200000.

Definition healthy : Network :=
  {| selectReply := Fulfils; updateReply := Fulfils |}.

Definition readDown (msg : string) : Network :=
  {| selectReply := ReportsError msg; updateReply := Fulfils |}.

Definition writeDown (msg : string) : Network :=
  {| selectReply := Fulfils; updateReply := ReportsError msg |}.

Definition row (id : string) (lastCheckIn : option string) (streak : Z)
  : ChildProgress :=
  {| child_id := id;
     last_check_in := lastCheckIn;
     streak_count := streak;
     other_columns := [("badges", "[]")] |}.

Definition childA : ChildProgress := row "A" (Some "2024-03-09T17:45:00Z") 5.
Definition childB : ChildProgress := row "B" (Some "2024-03-11T07:00:00Z") 5.
Definition childC : ChildProgress := row "C" (Some "2024-03-10T10:00:00Z") 5.
Definition childD : ChildProgress := row "D" None 3.
Definition childE : ChildProgress := row "E" (Some "2024-03-20T09:00:00Z") 4.

Definition childX : ChildProgress := row "X" (Some "yesterday") 2.

Definition table (rows : list ChildProgress) : Supabase :=
  {| child_progress := rows; requests := [] |}.

Definition run (net : Network) (rows : list ChildProgress) : Result * Supabase :=
  correctExistingStreakCounts utc (IsoSample.parseISO utc) net today (table rows).

End Sample.

(** * Parent records: fetch, create, save

    The data-access functions for the [parents] table
    ([fetchParentInfoById], [createParentInfo], [saveParentInfo],
    [updateParentInfoFields]).  They work on plain JavaScript objects, so
    objects are modelled as such: own properties in insertion order. *)

Module ParentData.

(** The JavaScript values these functions meet. *)
#[warnings="-register-all"]
Inductive JsValue : Type :=
| JUndefined
| JNull
| JString (s : string)
| JObject (props : list (string * JsValue)).

Definition Obj : Type := list (string * JsValue).

(** [o[k]] on an object: the value of the own property, [undefined] when
    there is none. *)
Fixpoint lookup (o : Obj) (k : string) : JsValue :=
  match o with
  | [] => JUndefined
  | (k', v) :: rest => if String.eqb k k' then v else lookup rest k
  end.

Definition hasOwn (o : Obj) (k : string) : bool :=
  existsb (fun p => String.eqb k (fst p)) o.

(** [v?.k], and [v.k] on a value that is not nullish: a property of an
    object, [undefined] on anything else. *)
Definition get (v : JsValue) (k : string) : JsValue :=
  match v with
  | JObject o => lookup o k
  | _ => JUndefined
  end.

(** [o[k] = v]: an existing property keeps its place, a new one goes
    last. *)
Fixpoint assign (o : Obj) (k : string) (v : JsValue) : Obj :=
  match o with
  | [] => [(k, v)]
  | (k', v') :: rest =>
      if String.eqb k k' then (k', v) :: rest else (k', v') :: assign rest k v
  end.

(** [{ ...a, ...b }] *)
Definition spread (a b : Obj) : Obj :=
  fold_left (fun o p => assign o (fst p) (snd p)) b a.

(** [Object.keys(o)] *)
Definition keys (o : Obj) : list string := map fst o.

Definition truthy (v : JsValue) : bool :=
  match v with
  | JUndefined | JNull => false
  | JString s => negb (String.eqb s "")
  | JObject _ => true
  end.

(** [v !== undefined] *)
Definition isDefined (v : JsValue) : bool :=
  match v with
  | JUndefined => false
  | _ => true
  end.

(** [s === v] for a string [s]. *)
Definition strictEqString (s : string) (v : JsValue) : bool :=
  match v with
  | JString s' => String.eqb s s'
  | _ => false
  end.

(** [a || b] *)
Definition orElse (a b : JsValue) : JsValue := if truthy a then a else b.

(** The queries sent to the backend. *)
Inductive Request : Type :=
| SelectParent (id : JsValue)
| InsertParent (row : Obj)
| UpdateParent (id : JsValue) (payload : Obj) (returning : bool)
| GetSession.

(** The answer to [.select('*').eq('id', id).maybeSingle()]: the row or
    [null], an error, or a rejected promise. *)
Inductive SelectReply : Type :=
| SelectData (row : option Obj)
| SelectError (message : string)
| SelectRejects (e : Thrown).

(** The answer to [supabase.auth.getSession()]: the session's user id, or
    no session; an error; or a rejected promise. *)
Inductive SessionReply : Type :=
| SessionData (userId : option string)
| SessionError (message : string)
| SessionRejects (e : Thrown).

Record Backend : Type := {
  onSelect : SelectReply;
  onInsert : Reply;
  onUpdate : Reply;
  onGetSession : SessionReply
}.

(** [if (info.f !== undefined) update.c = info.f] *)
Definition copyField (info : Obj) (field column : string) (update : Obj) : Obj :=
  if isDefined (lookup info field) then assign update column (lookup info field)
  else update.

(** The update object both [saveParentInfo] and [updateParentInfoFields]
    build from the fields they are given. *)
Definition buildUpdate (info : Obj) : Obj :=
  copyField info "additionalInfo" "additional_info"
    (copyField info "emergencyContact" "emergency_contact"
       (copyField info "email" "email"
          (copyField info "relationship" "relationship"
             (copyField info "name" "name" [])))).

(** The fields of a parent object the two functions look at, each with
    the column it is written to. *)
Definition fieldColumns : list (string * string) :=
  [("name", "name");
   ("relationship", "relationship");
   ("email", "email");
   ("emergencyContact", "emergency_contact");
   ("additionalInfo", "additional_info")].

(** The object [fetchParentInfoById] builds from a row. *)
Definition parentInfoOfRow (data : Obj) : Obj :=
  [("id", lookup data "id");
   ("name", lookup data "name");
   ("relationship", lookup data "relationship");
   ("email", lookup data "email");
   ("emergencyContact", lookup data "emergency_contact");
   ("additionalInfo", lookup data "additional_info")].

(** The row [createParentInfo] inserts. *)
Definition newParent (user : JsValue) : Obj :=
  [("id", get user "id");
   ("name", get (get user "user_metadata") "name");
   ("relationship", JString "Parent");
   ("email", orElse (get user "email") (JString ""));
   ("emergency_contact", JString "")].

(** The object [createParentInfo] returns and caches. *)
Definition parentInfoOfNew (row : Obj) : Obj :=
  [("id", lookup row "id");
   ("name", lookup row "name");
   ("relationship", lookup row "relationship");
   ("email", lookup row "email");
   ("emergencyContact", lookup row "emergency_contact")].

Section WithCache.

(** The module [parentCache] is imported, not defined here: its state and
    its five functions are parameters. *)
Variable Cache : Type.
Variable getCachedParentInfo : Cache -> JsValue -> option Obj.
Variable hasErrorLock : Cache -> JsValue -> bool.
Variable setErrorLock : Cache -> JsValue -> Cache.
Variable updateParentCache : Cache -> JsValue -> Obj -> Cache.
Variable clearParentCache : Cache -> JsValue -> Cache.

Variable backend : Backend.

(** The cache and the log of the queries sent. *)
Record World : Type := {
  cache : Cache;
  sent : list Request
}.

Definition Eff (A : Type) : Type := World -> Completion A * World.

Definition pure {A : Type} (a : A) : Eff A := fun w => (Normal a, w).

Definition andThen {A B : Type} (m : Eff A) (k : A -> Eff B) : Eff B :=
  fun w =>
    match m w with
    | (Normal a, w') => k a w'
    | (Throw e, w') => (Throw e, w')
    end.

(** [try { m } catch (error) { handler }] *)
Definition tryCatch {A : Type} (m : Eff A) (handler : Eff A) : Eff A :=
  fun w =>
    match m w with
    | (Normal a, w') => (Normal a, w')
    | (Throw _, w') => handler w'
    end.

Definition readCache {A : Type} (f : Cache -> A) : Eff A :=
  fun w => (Normal (f (cache w)), w).

Definition writeCache (f : Cache -> Cache) : Eff unit :=
  fun w => (Normal tt, {| cache := f (cache w); sent := sent w |}).

Definition send (q : Request) (w : World) : World :=
  {| cache := cache w; sent := sent w ++ [q] |}.

(** The [{ data, error }] pairs the queries resolve to. *)
Definition selectParent (id : JsValue) : Eff (Postgrest.Response Obj) :=
  fun w =>
    match onSelect backend with
    | SelectData row =>
        (Normal {| Postgrest.data := row; Postgrest.error := None |},
         send (SelectParent id) w)
    | SelectError m =>
        (Normal {| Postgrest.data := None; Postgrest.error := Some m |},
         send (SelectParent id) w)
    | SelectRejects e => (Throw e, send (SelectParent id) w)
    end.

Definition write (q : Request) (reply : Reply) : Eff (option string) :=
  fun w =>
    match reply with
    | Fulfils => (Normal None, send q w)
    | ReportsError m => (Normal (Some m), send q w)
    | Rejects e => (Throw e, send q w)
    end.

Definition getSession : Eff (Postgrest.Response string) :=
  fun w =>
    match onGetSession backend with
    | SessionData session =>
        (Normal {| Postgrest.data := session; Postgrest.error := None |},
         send GetSession w)
    | SessionError m =>
        (Normal {| Postgrest.data := None; Postgrest.error := Some m |},
         send GetSession w)
    | SessionRejects e => (Throw e, send GetSession w)
    end.

(** What an [async] function with a [try]/[catch] around its whole body
    resolves to: the body's value, or the handler's. *)
Definition resolve {A : Type} (m : Eff A) (fallback : A) (w : World) : A * World :=
  match m w with
  | (Normal a, w') => (a, w')
  | (Throw _, w') => (fallback, w')
  end.

Definition fetchParentInfoById_try (userId : JsValue) : Eff (option Obj) :=
  andThen (readCache (fun c => hasErrorLock c userId)) (fun locked =>
  if locked then readCache (fun c => getCachedParentInfo c userId)
  else
    andThen (readCache (fun c => getCachedParentInfo c userId)) (fun cachedInfo =>
    match cachedInfo with
    | Some info => pure (Some info)
    | None =>
        andThen (selectParent userId) (fun response =>
        match Postgrest.error response with
        | Some _ =>
            andThen (writeCache (fun c => setErrorLock c userId)) (fun _ =>
            readCache (fun c => getCachedParentInfo c userId))
        | None =>
            match Postgrest.data response with
            | Some data =>
                let parentInfo := parentInfoOfRow data in
                andThen (writeCache (fun c => updateParentCache c userId parentInfo))
                  (fun _ => pure (Some parentInfo))
            | None => pure None
            end
        end)
    end)).

Definition fetchParentInfoById_catch (userId : JsValue) : Eff (option Obj) :=
  andThen (writeCache (fun c => setErrorLock c userId)) (fun _ =>
  readCache (fun c => getCachedParentInfo c userId)).

Definition fetchParentInfoById (userId : JsValue) (w : World)
  : option Obj * World :=
  resolve (tryCatch (fetchParentInfoById_try userId)
                    (fetchParentInfoById_catch userId)) None w.

(** An awaited [async] function of this module, inside another one: it
    never rejects. *)
Definition await {A : Type} (f : World -> A * World) : Eff A :=
  fun w => let (a, w') := f w in (Normal a, w').

Definition createParentInfo_try (user : JsValue) : Eff (option Obj) :=
  if negb (truthy (get user "id"))
     || negb (truthy (get (get user "user_metadata") "name"))
  then pure None
  else
    andThen (await (fetchParentInfoById (get user "id"))) (fun existingParent =>
    match existingParent with
    | Some existing => pure (Some existing)
    | None =>
        let row := newParent user in
        andThen (write (InsertParent row) (onInsert backend)) (fun insertError =>
        match insertError with
        | Some _ => pure None
        | None =>
            let parentInfo := parentInfoOfNew row in
            andThen (writeCache (fun c => updateParentCache c (get user "id") parentInfo))
              (fun _ =>
            andThen (writeCache (fun c => clearParentCache c (get user "id")))
              (fun _ => pure (Some parentInfo)))
        end)
    end).

Definition createParentInfo (user : JsValue) (w : World) : option Obj * World :=
  resolve (createParentInfo_try user) None w.

Definition saveParentInfo_try (info : Obj) : Eff bool :=
  if negb (truthy (lookup info "id")) then pure false
  else
    andThen getSession (fun auth =>
    match Postgrest.error auth with
    | Some _ => pure false
    | None =>
        match Postgrest.data auth with
        | None => pure false
        | Some sessionUserId =>
            if negb (strictEqString sessionUserId (lookup info "id")) then pure false
            else
              let updateData := buildUpdate info in
              if Nat.eqb (List.length (keys updateData)) 0 then pure true
              else
                andThen (write (UpdateParent (lookup info "id") updateData true)
                               (onUpdate backend)) (fun error =>
                match error with
                | Some _ => pure false
                | None =>
                    andThen (writeCache (fun c =>
                               updateParentCache c (lookup info "id") info))
                      (fun _ => pure true)
                end)
        end
    end).

Definition saveParentInfo (info : Obj) (w : World) : bool * World :=
  resolve (saveParentInfo_try info) false w.

Definition updateParentInfoFields_try (parentId : JsValue) (updatedFields : Obj)
  : Eff bool :=
  let update := buildUpdate updatedFields in
  if Nat.eqb (List.length (keys update)) 0 then pure true
  else
    andThen (write (UpdateParent parentId update false) (onUpdate backend))
      (fun error =>
    match error with
    | Some _ => pure false
    | None =>
        andThen (readCache (fun c => getCachedParentInfo c parentId))
          (fun cachedInfo =>
        match cachedInfo with
        | Some cached =>
            andThen (writeCache (fun c =>
                       updateParentCache c parentId (spread cached updatedFields)))
              (fun _ => pure true)
        | None => pure true
        end)
    end).

Definition updateParentInfoFields (parentId : JsValue) (updatedFields : Obj)
  (w : World) : bool * World :=
  resolve (updateParentInfoFields_try parentId updatedFields) false w.

End WithCache.

Arguments cache {Cache} w.
Arguments sent {Cache} w.

(** ** A cache for the examples

    One entry and one lock per user id, kept in lists; clearing a user
    drops both. *)

Module SampleCache.

Definition jsEqb (a b : JsValue) : bool :=
  match a, b with
  | JUndefined, JUndefined => true
  | JNull, JNull => true
  | JString s, JString s' => String.eqb s s'
  | _, _ => false
  end.

Record T : Type := {
  entries : list (JsValue * Obj);
  locks : list JsValue
}.

Definition empty : T := {| entries := []; locks := [] |}.

Definition getCachedParentInfo (c : T) (id : JsValue) : option Obj :=
  option_map snd (find (fun e => jsEqb id (fst e)) (entries c)).

Definition hasErrorLock (c : T) (id : JsValue) : bool :=
  existsb (jsEqb id) (locks c).

Definition setErrorLock (c : T) (id : JsValue) : T :=
  {| entries := entries c; locks := id :: locks c |}.

Definition updateParentCache (c : T) (id : JsValue) (info : Obj) : T :=
  {| entries := (id, info) :: entries c; locks := locks c |}.

Definition clearParentCache (c : T) (id : JsValue) : T :=
  {| entries := filter (fun e => negb (jsEqb id (fst e))) (entries c);
     locks := filter (fun l => negb (jsEqb id l)) (locks c) |}.

Definition world (c : T) : World T := {| cache := c; sent := [] |}.

Definition fetch (b : Backend) := fetchParentInfoById T getCachedParentInfo
  hasErrorLock setErrorLock updateParentCache b.

Definition create (b : Backend) := createParentInfo T getCachedParentInfo
  hasErrorLock setErrorLock updateParentCache clearParentCache b.

Definition save (b : Backend) := saveParentInfo T updateParentCache b.

Definition updateFields (b : Backend) := updateParentInfoFields T
  getCachedParentInfo updateParentCache b.

Definition row : Obj :=
  [("id", JString "u1"); ("name", JString "Ada"); ("relationship", JString "Mother");
   ("email", JString "ada@example.org"); ("emergency_contact", JNull);
   ("additional_info", JNull); ("created_at", JString "2024-01-01")].

Definition user : JsValue :=
  JObject [("id", JString "u1");
           ("email", JString "ada@example.org");
           ("user_metadata", JObject [("name", JString "Ada")])].

Definition up : Backend :=
  {| onSelect := SelectData (Some row); onInsert := Fulfils;
     onUpdate := Fulfils; onGetSession := SessionData (Some "u1") |}.

Definition fresh : Backend :=
  {| onSelect := SelectData None; onInsert := Fulfils;
     onUpdate := Fulfils; onGetSession := SessionData (Some "u1") |}.

Definition readFails : Backend :=
  {| onSelect := SelectError "timeout"; onInsert := Fulfils;
     onUpdate := Fulfils; onGetSession := SessionData (Some "u1") |}.

End SampleCache.

End ParentData.

(** * The child profiles tab

    The state, refs and handlers of the [ChildProfilesTab] component.  The
    collaborators it is handed ([refreshChildProfiles], [deleteChildProfile],
    [setRelationshipToParent], [toast], [navigate]) are recorded as the
    calls made to them; an awaited call settles later, fulfilled or
    rejected, and the handler resumes in the state the component has
    then. *)

Module ProfilesTab.

Inductive Effect : Type :=
| RefreshChildProfiles (userId : string)
| DeleteChildProfile (id : string)
| SetRelationshipToParent (childId value : string)
| Toast (title description : string) (destructive : bool)
| Navigate (path : string).

(** The four [useState] cells, the three [useRef] cells, and the calls
    made so far. *)
Record Tab : Type := {
  deleteDialogOpen : bool;
  profileToDelete : option string;
  editChildRelationship : option string;
  relationshipValue : string;
  hasInitialFetch : bool;
  fetchInProgress : bool;
  componentMounted : bool;
  effects : list Effect
}.

(** The component as first rendered. *)
Definition mounted : Tab :=
  {| deleteDialogOpen := false;
     profileToDelete := None;
     editChildRelationship := None;
     relationshipValue := "";
     hasInitialFetch := false;
     fetchInProgress := false;
     componentMounted := true;
     effects := [] |}.

Definition setDeleteDialogOpen (b : bool) (t : Tab) : Tab :=
  {| deleteDialogOpen := b;
     profileToDelete := profileToDelete t;
     editChildRelationship := editChildRelationship t;
     relationshipValue := relationshipValue t;
     hasInitialFetch := hasInitialFetch t;
     fetchInProgress := fetchInProgress t;
     componentMounted := componentMounted t;
     effects := effects t |}.

Definition setProfileToDelete (p : option string) (t : Tab) : Tab :=
  {| deleteDialogOpen := deleteDialogOpen t;
     profileToDelete := p;
     editChildRelationship := editChildRelationship t;
     relationshipValue := relationshipValue t;
     hasInitialFetch := hasInitialFetch t;
     fetchInProgress := fetchInProgress t;
     componentMounted := componentMounted t;
     effects := effects t |}.

Definition setEditChildRelationship (p : option string) (t : Tab) : Tab :=
  {| deleteDialogOpen := deleteDialogOpen t;
     profileToDelete := profileToDelete t;
     editChildRelationship := p;
     relationshipValue := relationshipValue t;
     hasInitialFetch := hasInitialFetch t;
     fetchInProgress := fetchInProgress t;
     componentMounted := componentMounted t;
     effects := effects t |}.

Definition setRelationshipValue (v : string) (t : Tab) : Tab :=
  {| deleteDialogOpen := deleteDialogOpen t;
     profileToDelete := profileToDelete t;
     editChildRelationship := editChildRelationship t;
     relationshipValue := v;
     hasInitialFetch := hasInitialFetch t;
     fetchInProgress := fetchInProgress t;
     componentMounted := componentMounted t;
     effects := effects t |}.

Definition setHasInitialFetch (b : bool) (t : Tab) : Tab :=
  {| deleteDialogOpen := deleteDialogOpen t;
     profileToDelete := profileToDelete t;
     editChildRelationship := editChildRelationship t;
     relationshipValue := relationshipValue t;
     hasInitialFetch := b;
     fetchInProgress := fetchInProgress t;
     componentMounted := componentMounted t;
     effects := effects t |}.

Definition setFetchInProgress (b : bool) (t : Tab) : Tab :=
  {| deleteDialogOpen := deleteDialogOpen t;
     profileToDelete := profileToDelete t;
     editChildRelationship := editChildRelationship t;
     relationshipValue := relationshipValue t;
     hasInitialFetch := hasInitialFetch t;
     fetchInProgress := b;
     componentMounted := componentMounted t;
     effects := effects t |}.

Definition setComponentMounted (b : bool) (t : Tab) : Tab :=
  {| deleteDialogOpen := deleteDialogOpen t;
     profileToDelete := profileToDelete t;
     editChildRelationship := editChildRelationship t;
     relationshipValue := relationshipValue t;
     hasInitialFetch := hasInitialFetch t;
     fetchInProgress := fetchInProgress t;
     componentMounted := b;
     effects := effects t |}.

(** A call to a collaborator. *)
Definition call (e : Effect) (t : Tab) : Tab :=
  {| deleteDialogOpen := deleteDialogOpen t;
     profileToDelete := profileToDelete t;
     editChildRelationship := editChildRelationship t;
     relationshipValue := relationshipValue t;
     hasInitialFetch := hasInitialFetch t;
     fetchInProgress := fetchInProgress t;
     componentMounted := componentMounted t;
     effects := effects t ++ [e] |}.

(** A string or [null] in a condition: [null] and the empty string are
    falsy.  [user?.id] is read the same way. *)
Definition truthyText (s : option string) : option string :=
  match s with
  | Some s => if String.eqb s "" then None else Some s
  | None => None
  end.

(** The rest of an [async] function: finished, or suspended at an [await]
    until the awaited call is fulfilled ([true]) or rejected ([false]); it
    resumes in the state the component has then. *)
#[warnings="-register-all"]
Inductive Async : Type :=
| Done
| Await (resume : bool -> Tab -> Tab * Async).

(** [fetchProfiles] after its [await]: the [try] block's last statement,
    or the [catch], and the [finally]. *)
Definition fetchProfiles_resume (fulfilled : bool) (t1 : Tab) : Tab * Async :=
  let t2 :=
    if fulfilled then
      (if componentMounted t1 then setHasInitialFetch true t1 else t1)
    else t1 in
  ((if componentMounted t2 then setFetchInProgress false t2 else t2), Done).

(** [fetchProfiles], called by the effect. *)
Definition fetchProfiles (user : option string) (t : Tab) : Tab * Async :=
  match truthyText user with
  | Some userId =>
      if negb (hasInitialFetch t) && negb (fetchInProgress t) && componentMounted t
      then
        (call (RefreshChildProfiles userId) (setFetchInProgress true t),
         Await fetchProfiles_resume)
      else (t, Done)
  | None => (t, Done)
  end.

(** The function the effect returns. *)
Definition cleanup (t : Tab) : Tab := setComponentMounted false t.

Definition handleDeleteProfile (id : string) (t : Tab) : Tab :=
  setDeleteDialogOpen true (setProfileToDelete (Some id) t).

Definition deletedToast : Effect :=
  Toast "Profile Deleted" "The child profile has been successfully deleted." false.

Definition deleteFailedToast : Effect :=
  Toast "Error" "Failed to delete profile. Please try again." true.

(** The [finally] block of [confirmDelete]. *)
Definition confirmDelete_finally (t : Tab) : Tab :=
  setProfileToDelete None (setDeleteDialogOpen false t).

(** [confirmDelete] after the refresh it awaited. *)
Definition confirmDelete_refreshed (refreshed : bool) (t3 : Tab) : Tab * Async :=
  (confirmDelete_finally (if refreshed then t3 else call deleteFailedToast t3), Done).

(** [confirmDelete] after the deletion it awaited. *)
Definition confirmDelete_deleted (user : option string) (deleted : bool) (t1 : Tab)
  : Tab * Async :=
  if deleted then
    let t2 := call deletedToast t1 in
    match truthyText user with
    | Some userId =>
        if componentMounted t2 then
          (call (RefreshChildProfiles userId) (setHasInitialFetch false t2),
           Await confirmDelete_refreshed)
        else (confirmDelete_finally t2, Done)
    | None => (confirmDelete_finally t2, Done)
    end
  else (confirmDelete_finally (call deleteFailedToast t1), Done).

Definition confirmDelete (user : option string) (t : Tab) : Tab * Async :=
  match truthyText (profileToDelete t) with
  | Some id => (call (DeleteChildProfile id) t, Await (confirmDelete_deleted user))
  | None => (t, Done)
  end.

Definition relationshipToast : Effect :=
  Toast "Relationship Updated" "The relationship has been successfully updated." false.

Definition relationshipFailedToast : Effect :=
  Toast "Error" "Failed to update relationship. Please try again." true.

(** The [finally] block of [handleSaveRelationship]. *)
Definition handleSaveRelationship_finally (t : Tab) : Tab :=
  setRelationshipValue "" (setEditChildRelationship None t).

(** [handleSaveRelationship] after the refresh it awaited. *)
Definition handleSaveRelationship_refreshed (refreshed : bool) (t3 : Tab)
  : Tab * Async :=
  (handleSaveRelationship_finally
     (if refreshed then t3 else call relationshipFailedToast t3), Done).

(** [handleSaveRelationship] after the save it awaited. *)
Definition handleSaveRelationship_saved (user : option string) (saved : bool)
  (t1 : Tab) : Tab * Async :=
  if saved then
    let t2 := call relationshipToast t1 in
    match truthyText user with
    | Some userId =>
        if componentMounted t2 then
          (call (RefreshChildProfiles userId) t2,
           Await handleSaveRelationship_refreshed)
        else (handleSaveRelationship_finally t2, Done)
    | None => (handleSaveRelationship_finally t2, Done)
    end
  else (handleSaveRelationship_finally (call relationshipFailedToast t1), Done).

Definition handleSaveRelationship (user : option string) (t : Tab) : Tab * Async :=
  match truthyText (editChildRelationship t), truthyText (Some (relationshipValue t)) with
  | Some childId, Some value =>
      (call (SetRelationshipToParent childId value) t,
       Await (handleSaveRelationship_saved user))
  | _, _ => (t, Done)
  end.

Definition handleCreateProfile (t : Tab) : Tab := call (Navigate "/create-profile") t.

(** [relationship || ""] *)
Definition handleEditRelationship (id : string) (relationship : option string)
  (t : Tab) : Tab :=
  setRelationshipValue
    (match truthyText relationship with Some r => r | None => "" end)
    (setEditChildRelationship (Some id) t).

(** [open={!!editChildRelationship}] *)
Definition relationshipDialogOpen (t : Tab) : bool :=
  match truthyText (editChildRelationship t) with
  | Some _ => true
  | None => false
  end.

(** [(open) => !open && setEditChildRelationship(null)] *)
Definition relationshipDialogOpenChange (open : bool) (t : Tab) : Tab :=
  if negb open then setEditChildRelationship None t else t.

(** An [async] function run with nothing else happening in between: the
    awaited calls settle as listed. *)
Fixpoint alone (outcomes : list bool) (p : Tab * Async) : Tab * Async :=
  match outcomes, snd p with
  | o :: rest, Await resume => alone rest (resume o (fst p))
  | _, _ => p
  end.

(** The states an [async] function can finish in, whatever the awaited
    calls do and whatever state the component is in when it resumes. *)
Inductive ends : Tab * Async -> Tab -> Prop :=
| ends_done (t : Tab) : ends (t, Done) t
| ends_await (t : Tab) (resume : bool -> Tab -> Tab * Async)
    (fulfilled : bool) (t1 t' : Tab) :
    ends (resume fulfilled t1) t' -> ends (t, Await resume) t'.

(** What happens to the component: renders run the effect or its cleanup,
    the user acts, and a pending call settles. *)
Inductive Event : Type :=
| EffectRun (user : option string)
| EffectCleanup
| DeleteClicked (id : string)
| DeleteConfirmed (user : option string)
| DeleteDialogOpenChange (open : bool)
| EditRelationshipClicked (id : string) (relationship : option string)
| RelationshipTyped (value : string)
| RelationshipSaved (user : option string)
| RelationshipDialogOpenChange (open : bool)
| CreateProfileClicked
| Settled (n : nat) (fulfilled : bool).

(** The component with the handlers suspended at an [await]. *)
Record Running : Type := {
  tab : Tab;
  pending : list (bool -> Tab -> Tab * Async)
}.

Definition launch (p : Tab * Async) (others : list (bool -> Tab -> Tab * Async))
  : Running :=
  match snd p with
  | Done => {| tab := fst p; pending := others |}
  | Await resume => {| tab := fst p; pending := others ++ [resume] |}
  end.

Fixpoint without {A : Type} (n : nat) (l : list A) : list A :=
  match n, l with
  | _, [] => []
  | O, _ :: rest => rest
  | S n', x :: rest => x :: without n' rest
  end.

Definition step (r : Running) (e : Event) : Running :=
  let now (t : Tab) := {| tab := t; pending := pending r |} in
  match e with
  | EffectRun user => launch (fetchProfiles user (tab r)) (pending r)
  | EffectCleanup => now (cleanup (tab r))
  | DeleteClicked id => now (handleDeleteProfile id (tab r))
  | DeleteConfirmed user => launch (confirmDelete user (tab r)) (pending r)
  | DeleteDialogOpenChange open => now (setDeleteDialogOpen open (tab r))
  | EditRelationshipClicked id relationship =>
      now (handleEditRelationship id relationship (tab r))
  | RelationshipTyped value => now (setRelationshipValue value (tab r))
  | RelationshipSaved user => launch (handleSaveRelationship user (tab r)) (pending r)
  | RelationshipDialogOpenChange open =>
      now (relationshipDialogOpenChange open (tab r))
  | CreateProfileClicked => now (handleCreateProfile (tab r))
  | Settled n fulfilled =>
      match nth_error (pending r) n with
      | Some resume => launch (resume fulfilled (tab r)) (without n (pending r))
      | None => r
      end
  end.

Definition run (events : list Event) (r : Running) : Running :=
  fold_left step events r.

Definition start : Running := {| tab := mounted; pending := [] |}.

Definition isRefresh (e : Effect) : bool :=
  match e with
  | RefreshChildProfiles _ => true
  | _ => false
  end.

(** The calls to [refreshChildProfiles] made so far. *)
Definition refreshes (t : Tab) : list Effect := filter isRefresh (effects t).

(** A suspended handler that, resumed after the cleanup has run, leaves
    [componentMounted] false and calls no refresh, now or later. *)
Fixpoint quiet (a : Async) : Prop :=
  match a with
  | Done => True
  | Await resume =>
      forall fulfilled t,
        (componentMounted t = false ->
         componentMounted (fst (resume fulfilled t)) = false
         /\ refreshes (fst (resume fulfilled t)) = refreshes t)
        /\ quiet (snd (resume fulfilled t))
  end.

(** Once [componentMounted] is false, a piece of code leaves it false and
    calls no refresh. *)
Definition calm (before after : Tab) : Prop :=
  componentMounted before = false ->
  componentMounted after = false /\ refreshes after = refreshes before.

(** Every suspended handler of the component is quiet. *)
Definition allQuiet (r : Running) : Prop :=
  Forall (fun resume => quiet (Await resume)) (pending r).

End ProfilesTab.

(** * The child profiles list

    What a card of [ChildProfilesList] shows that depends on the profile
    and on the active child: the border, the badges and the buttons with
    what their click does. *)

Module ProfilesList.

Record Profile : Type := {
  id : string;
  nickname : string;
  creationStatus : option string
}.

Inductive Badge : Type :=
| ActiveProfile
| Status (className label : string).

Inductive Action : Type :=
| SetCurrentChildId (id : string)
| NavigateTo (path : string)
| OnDeleteProfile (id : string).

Inductive Button : Type :=
| MakeActive (onClick : Action)
| EditProfile (onClick : Action)
| Delete (onClick : Action).

Record CardView : Type := {
  key : string;
  className : string;
  badges : list Badge;
  buttons : list Button
}.

(** [profile.id === currentChildId], with [currentChildId] a string or
    [null]. *)
Definition isCurrent (currentChildId : option string) (profile : Profile) : bool :=
  match currentChildId with
  | Some current => String.eqb (id profile) current
  | None => false
  end.

Definition card (currentChildId : option string) (profile : Profile) : CardView :=
  {| key := id profile;
     className :=
       if isCurrent currentChildId profile then "border-2 border-sprout-purple" else "";
     badges :=
       ((if isCurrent currentChildId profile then [ActiveProfile] else [])
        ++ match creationStatus profile with
           | Some status =>
               if String.eqb status "" then []
               else if String.eqb status "completed"
                    then [Status "bg-green-500" "Complete"]
                    else [Status "bg-amber-500" "Pending"]
           | None => []
           end)%list;
     buttons :=
       ((if negb (isCurrent currentChildId profile)
         then [MakeActive (SetCurrentChildId (id profile))] else [])
        ++ [EditProfile (NavigateTo ("/edit-profile/" ++ id profile)%string);
            Delete (OnDeleteProfile (id profile))])%list |}.

(** [childProfiles.map(...)] *)
Definition cards (currentChildId : option string) (childProfiles : list Profile)
  : list CardView :=
  map (card currentChildId) childProfiles.

Definition highlighted (c : CardView) : bool :=
  String.eqb (className c) "border-2 border-sprout-purple".

Definition hasActiveBadge (c : CardView) : bool :=
  existsb (fun b => match b with ActiveProfile => true | _ => false end) (badges c).

Definition offersMakeActive (c : CardView) : bool :=
  existsb (fun b => match b with MakeActive _ => true | _ => false end) (buttons c).

End ProfilesList.

(** * Properties *)

Ltac split_if :=
  match goal with
  | |- context [if ?c =? ?d then _ else _] =>
      destruct (Z.eqb_spec c d); try lia
  end.

Lemma msPerDay_pos : 0 < MILLISECONDS_IN_DAY.
Proof. reflexivity. Qed.

Lemma localMs_startOfDayMs tz t :
  localMs tz (startOfDayMs tz t) = dayNumber tz t * MILLISECONDS_IN_DAY.
Proof.
  unfold startOfDayMs, timeOfDay, dayNumber, localMs.
  pose proof (Z.div_mod (t + tz) MILLISECONDS_IN_DAY) as E.
  pose proof msPerDay_pos. lia.
Qed.

Lemma differenceInCalendarDaysMs_dayNumber tz l r :
  differenceInCalendarDaysMs tz l r = dayNumber tz l - dayNumber tz r.
Proof.
  unfold differenceInCalendarDaysMs. rewrite !localMs_startOfDayMs.
  rewrite <- Z.mul_sub_distr_r. apply Z.div_mul. discriminate.
Qed.

Lemma differenceInDaysMs_quot tz l r :
  differenceInDaysMs tz l r = Z.quot (l - r) MILLISECONDS_IN_DAY.
Proof.
  unfold differenceInDaysMs, compareLocalAsc, setDateBack.
  rewrite differenceInCalendarDaysMs_dayNumber.
  unfold dayNumber, localMs.
  pose proof msPerDay_pos as HD.
  generalize dependent MILLISECONDS_IN_DAY. intros D HD.
  replace (l - r) with ((l + tz) - (r + tz)) by lia.
  pose proof (Z.div_mod (l + tz) D ltac:(lia)) as Ea.
  pose proof (Z.div_mod (r + tz) D ltac:(lia)) as Eb.
  pose proof (Z.mod_pos_bound (l + tz) D HD) as Ba.
  pose proof (Z.mod_pos_bound (r + tz) D HD) as Bb.
  generalize dependent ((l + tz) / D). intros qa Ea.
  generalize dependent ((r + tz) / D). intros qb Eb.
  generalize dependent ((l + tz) mod D). intros ra Ea Ba.
  generalize dependent ((r + tz) mod D). intros rb Eb Bb.
  destruct (Z.lt_trichotomy (l + tz) (r + tz)) as [Hlt | [Heq | Hgt]].
  - (* the left date is the earlier one *)
    rewrite (Z.sgn_neg (l + tz - (r + tz))) by lia.
    assert (Hq : qa <= qb) by nia.
    rewrite (Z.abs_neq (qa - qb)) by lia.
    replace (l - -1 * - (qa - qb) * D + tz - (r + tz)) with (ra - rb) by lia.
    replace (l + tz - (r + tz)) with (- ((r + tz) - (l + tz))) by lia.
    rewrite Z.quot_opp_l by lia.
    rewrite Z.quot_div_nonneg by lia.
    destruct (Z.lt_trichotomy ra rb) as [H | [H | H]].
    + rewrite (Z.sgn_neg (ra - rb)) by lia. split_if.
      rewrite <- (Z.div_unique (r + tz - (l + tz)) D (qb - qa) (rb - ra)) by lia. lia.
    + rewrite (Z.sgn_null (ra - rb)) by lia. split_if.
      rewrite <- (Z.div_unique (r + tz - (l + tz)) D (qb - qa) (rb - ra)) by lia. lia.
    + rewrite (Z.sgn_pos (ra - rb)) by lia. split_if.
      rewrite <- (Z.div_unique (r + tz - (l + tz)) D (qb - qa - 1) (rb - ra + D)) by lia.
      lia.
  - replace (l + tz - (r + tz)) with 0 by lia. reflexivity.
  - (* the left date is the later one *)
    rewrite (Z.sgn_pos (l + tz - (r + tz))) by lia.
    assert (Hq : qb <= qa) by nia.
    rewrite (Z.abs_eq (qa - qb)) by lia.
    replace (l - 1 * (qa - qb) * D + tz - (r + tz)) with (ra - rb) by lia.
    rewrite Z.quot_div_nonneg by lia.
    destruct (Z.lt_trichotomy ra rb) as [H | [H | H]].
    + rewrite (Z.sgn_neg (ra - rb)) by lia. split_if.
      rewrite <- (Z.div_unique (l + tz - (r + tz)) D (qa - qb - 1) (ra - rb + D)) by lia.
      lia.
    + rewrite (Z.sgn_null (ra - rb)) by lia. split_if.
      rewrite <- (Z.div_unique (l + tz - (r + tz)) D (qa - qb) (ra - rb)) by lia. lia.
    + rewrite (Z.sgn_pos (ra - rb)) by lia. split_if.
      rewrite <- (Z.div_unique (l + tz - (r + tz)) D (qa - qb) (ra - rb)) by lia. lia.
Qed.

(** ** Calendar days and full days *)

Section Days.

Variable tz : Z.

Lemma localMs_split t :
  localMs tz t = dayNumber tz t * MILLISECONDS_IN_DAY + timeOfDay tz t
  /\ 0 <= timeOfDay tz t < MILLISECONDS_IN_DAY.
Proof.
  unfold dayNumber, timeOfDay. split.
  - rewrite Z.mul_comm. apply Z.div_mod. discriminate.
  - apply Z.mod_pos_bound. reflexivity.
Qed.

Lemma startOfDayMs_dayNumber t :
  startOfDayMs tz t = dayNumber tz t * MILLISECONDS_IN_DAY - tz.
Proof. pose proof (localMs_startOfDayMs tz t) as H. unfold localMs in H. lia. Qed.

Lemma isSameDayMs_dayNumber a b :
  isSameDayMs tz a b = true <-> dayNumber tz a = dayNumber tz b.
Proof.
  unfold isSameDayMs. rewrite Z.eqb_eq, !startOfDayMs_dayNumber.
  pose proof msPerDay_pos. split; intros; nia.
Qed.

Lemma dayNumber_subDays now n :
  dayNumber tz (subDaysMs now n) = dayNumber tz now - n.
Proof.
  unfold subDaysMs, setDateBack, dayNumber, localMs.
  replace (now - n * MILLISECONDS_IN_DAY + tz)
    with (now + tz + (- n) * MILLISECONDS_IN_DAY) by lia.
  rewrite Z.div_add by discriminate. lia.
Qed.

Lemma isYesterdayMs_dayNumber now t :
  isYesterdayMs tz now t = true <-> dayNumber tz t = dayNumber tz now - 1.
Proof.
  unfold isYesterdayMs. now rewrite isSameDayMs_dayNumber, dayNumber_subDays.
Qed.

(** Truncated division by a day exceeds one exactly from two whole days
    on. *)
Lemma quot_day_gt_1 x : 1 < Z.quot x MILLISECONDS_IN_DAY <-> 2 * MILLISECONDS_IN_DAY <= x.
Proof.
  pose proof msPerDay_pos as HD.
  destruct (Z_le_gt_dec 0 x) as [Hx | Hx].
  - rewrite Z.quot_div_nonneg by lia.
    pose proof (Z.div_mod x MILLISECONDS_IN_DAY ltac:(lia)).
    pose proof (Z.mod_pos_bound x MILLISECONDS_IN_DAY HD). nia.
  - replace x with (- (- x)) at 1 by lia.
    rewrite Z.quot_opp_l by lia. rewrite Z.quot_div_nonneg by lia.
    pose proof (Z.div_pos (- x) MILLISECONDS_IN_DAY ltac:(lia) HD). lia.
Qed.

Lemma quot_day_le_0 x : x <= 0 -> Z.quot x MILLISECONDS_IN_DAY <= 0.
Proof.
  intros Hx. pose proof msPerDay_pos as HD.
  replace x with (- (- x)) by lia.
  rewrite Z.quot_opp_l by lia. rewrite Z.quot_div_nonneg by lia.
  pose proof (Z.div_pos (- x) MILLISECONDS_IN_DAY ltac:(lia) HD). lia.
Qed.

(** The loop's test, read on the calendar: the check-in is at or before
    the midnight that opened the day before yesterday. *)
Lemma elapsed_gt_1 today t :
  1 < differenceInDaysMs tz (startOfDayMs tz today) t
  <-> localMs tz t <= (dayNumber tz today - 2) * MILLISECONDS_IN_DAY.
Proof.
  rewrite differenceInDaysMs_quot, quot_day_gt_1, startOfDayMs_dayNumber.
  unfold localMs. lia.
Qed.

Lemma elapsed_gt_1_calendar today t :
  1 < differenceInDaysMs tz (startOfDayMs tz today) t
  <-> 3 <= differenceInCalendarDaysMs tz today t
      \/ (differenceInCalendarDaysMs tz today t = 2 /\ timeOfDay tz t = 0).
Proof.
  rewrite elapsed_gt_1, differenceInCalendarDaysMs_dayNumber.
  destruct (localMs_split t) as [E B]. rewrite E.
  pose proof msPerDay_pos. split; intros; nia.
Qed.

Lemma elapsed_future today t :
  startOfDayMs tz today <= t ->
  differenceInDaysMs tz (startOfDayMs tz today) t <= 0.
Proof.
  intros H. rewrite differenceInDaysMs_quot. apply quot_day_le_0. lia.
Qed.

End Days.

(** ** The loop *)

Section Loop.

Variable tz : Z.
Variable parseISO : string -> Date.
Variable today : Z.

Lemma identify_readable rows : forall acc,
  forallb (readable parseISO) rows = true ->
  identify tz parseISO today rows acc
  = Normal (acc ++ map child_id (filter (needsReset tz parseISO today) rows))%list.
Proof.
  induction rows as [| child rest IH]; intros acc Hr; simpl.
  - now rewrite app_nil_r.
  - simpl in Hr. apply andb_true_iff in Hr as [Hc Hrest].
    unfold readable, needsReset, lastCheckInDate in *.
    destruct (last_check_in child) as [s |].
    + destruct (String.eqb s "").
      * rewrite IH by assumption. simpl. now rewrite <- app_assoc.
      * destruct (parseISO s) as [t |]; [| discriminate]. simpl.
        destruct (1 <? differenceInDaysMs tz (startOfDayMs tz today) t).
        -- rewrite IH by assumption. simpl. now rewrite <- app_assoc.
        -- now apply IH.
    + rewrite IH by assumption. simpl. now rewrite <- app_assoc.
Qed.

Lemma identify_unreadable rows : forall acc,
  forallb (readable parseISO) rows = false ->
  identify tz parseISO today rows acc = Throw (ThrownError "Invalid time value").
Proof.
  induction rows as [| child rest IH]; intros acc Hr; simpl in *.
  - discriminate.
  - apply andb_false_iff in Hr.
    unfold readable, lastCheckInDate in Hr.
    destruct (last_check_in child) as [s |].
    + destruct (String.eqb s "").
      * destruct Hr as [Hr | Hr]; [discriminate | now apply IH].
      * destruct (parseISO s) as [t |]; simpl; [| reflexivity].
        destruct Hr as [Hr | Hr]; [discriminate |].
        destruct (1 <? differenceInDaysMs tz (startOfDayMs tz today) t); now apply IH.
    + destruct Hr as [Hr | Hr]; [discriminate | now apply IH].
Qed.

Lemma filter_classified rows :
  filter (needsReset tz parseISO today) (filter streak_count_gt_0 rows)
  = filter (classified tz parseISO today) rows.
Proof.
  induction rows as [| r rest IH]; simpl; [reflexivity |].
  rewrite <- IH. unfold classified.
  destruct (streak_count_gt_0 r); simpl; [| reflexivity].
  destruct (needsReset tz parseISO today r); reflexivity.
Qed.

End Loop.

(** ** Rows and identifiers *)

Lemma child_id_in_In ids r : child_id_in ids r = true <-> In (child_id r) ids.
Proof.
  unfold child_id_in. rewrite existsb_exists. split.
  - intros (x & Hx & E). apply String.eqb_eq in E. now subst.
  - intros H. exists (child_id r). split; [assumption | apply String.eqb_refl].
Qed.

Lemma with_streak_count_0_same r : streak_count r = 0 -> with_streak_count_0 r = r.
Proof. destruct r; unfold with_streak_count_0; simpl. now intros ->. Qed.

Lemma unique_child_id rows q r :
  NoDup (map child_id rows) -> In q rows -> In r rows ->
  child_id q = child_id r -> q = r.
Proof.
  induction rows as [| x rest IH]; simpl; intros Hnd Hq Hr E; [contradiction |].
  inversion Hnd as [| ? ? Hx Hrest]; subst.
  destruct Hq as [-> | Hq], Hr as [-> | Hr]; auto.
  - exfalso. apply Hx. rewrite E. now apply in_map.
  - exfalso. apply Hx. rewrite <- E. now apply in_map.
Qed.

Lemma Forall2_map_r {A B} (f : A -> B) (l : list A) :
  Forall2 (fun a b => b = f a) l (map f l).
Proof. induction l; simpl; constructor; auto. Qed.

Lemma Forall2_weaken_In {A B} (P Q : A -> B -> Prop) l l' :
  (forall a b, In a l -> P a b -> Q a b) -> Forall2 P l l' -> Forall2 Q l l'.
Proof.
  intros H F. induction F as [| a b l l' Hab F IH]; constructor.
  - apply H; [now left | assumption].
  - apply IH. intros x y Hx. apply H. now right.
Qed.

Lemma Forall2_refl_In {A} (Q : A -> A -> Prop) l :
  (forall a, In a l -> Q a a) -> Forall2 Q l l.
Proof.
  induction l as [| a l IH]; intros H; constructor.
  - apply H. now left.
  - apply IH. intros x Hx. apply H. now right.
Qed.

Section Rows.

Variable tz : Z.
Variable parseISO : string -> Date.
Variable today : Z.

Lemma In_classifiedIds id rows :
  In id (classifiedIds tz parseISO today rows)
  <-> exists q, In q rows /\ classified tz parseISO today q = true /\ child_id q = id.
Proof.
  unfold classifiedIds. rewrite in_map_iff. split.
  - intros (q & E & Hq). apply filter_In in Hq as [Hq Hc]. now exists q.
  - intros (q & Hq & Hc & E). exists q. split; [assumption |].
    apply filter_In. now split.
Qed.

Lemma classified_loaded r :
  classified tz parseISO today r = true -> 0 < streak_count r.
Proof.
  unfold classified, streak_count_gt_0. intros H.
  apply andb_true_iff in H as [H _]. now apply Z.ltb_lt.
Qed.

Lemma readable_loaded rows r :
  forallb (readable parseISO) (filter streak_count_gt_0 rows) = true ->
  In r rows -> 0 < streak_count r -> readable parseISO r = true.
Proof.
  intros Hr Hin Hs. rewrite forallb_forall in Hr. apply Hr.
  apply filter_In. split; [assumption |]. now apply Z.ltb_lt.
Qed.

(** A readable row the loop passes over has a check-in date, and fewer
    than two full days lie between it and today's midnight. *)
Lemma kept_row_recent r :
  readable parseISO r = true -> needsReset tz parseISO today r = false ->
  exists t, lastCheckInDate parseISO r = Some (Some t)
            /\ differenceInDaysMs tz (startOfDayMs tz today) t <= 1.
Proof.
  unfold readable, needsReset. destruct (lastCheckInDate parseISO r) as [[t |] |];
    try discriminate.
  simpl. intros _ H. exists t. split; [reflexivity |].
  apply Z.ltb_ge in H. assumption.
Qed.

Lemma recent_within_2_days t :
  differenceInDaysMs tz (startOfDayMs tz today) t <= 1 ->
  calendarDayDifference tz today t <= 2.
Proof.
  intros H. unfold calendarDayDifference.
  pose proof (elapsed_gt_1_calendar tz today t) as [_ E]. lia.
Qed.

Lemma needsReset_absent r :
  lastCheckInDate parseISO r = None -> needsReset tz parseISO today r = true.
Proof. unfold needsReset. now intros ->. Qed.

Lemma needsReset_at r t :
  lastCheckInDate parseISO r = Some (Some t) ->
  needsReset tz parseISO today r = (1 <? differenceInDaysMs tz (startOfDayMs tz today) t).
Proof. unfold needsReset. now intros ->. Qed.

Lemma needsReset_3_days r t :
  lastCheckInDate parseISO r = Some (Some t) ->
  3 <= calendarDayDifference tz today t ->
  needsReset tz parseISO today r = true.
Proof.
  intros E H. rewrite (needsReset_at r t E). apply Z.ltb_lt.
  apply elapsed_gt_1_calendar. now left.
Qed.

Lemma needsReset_within_1_day r t :
  lastCheckInDate parseISO r = Some (Some t) ->
  calendarDayDifference tz today t <= 1 ->
  needsReset tz parseISO today r = false.
Proof.
  intros E H. rewrite (needsReset_at r t E). apply Z.ltb_ge.
  unfold calendarDayDifference in H.
  pose proof (elapsed_gt_1_calendar tz today t) as [F _]. lia.
Qed.

Lemma needsReset_today_or_yesterday r :
  checkedInToday tz parseISO today r \/ checkedInYesterday tz parseISO today r ->
  needsReset tz parseISO today r = false.
Proof.
  intros [(t & E & H) | (t & E & H)]; apply (needsReset_within_1_day r t E);
    unfold calendarDayDifference; rewrite differenceInCalendarDaysMs_dayNumber.
  - apply isSameDayMs_dayNumber in H. lia.
  - apply isYesterdayMs_dayNumber in H. lia.
Qed.

(** Where the loop and the calendar rule part: two calendar days back,
    after midnight. *)
Lemma needsReset_2_days_after_midnight r t :
  lastCheckInDate parseISO r = Some (Some t) ->
  calendarDayDifference tz today t = 2 -> 0 < timeOfDay tz t ->
  needsReset tz parseISO today r = false /\ staleByCalendar tz parseISO today r = true.
Proof.
  intros E H2 Ht. split.
  - rewrite (needsReset_at r t E). apply Z.ltb_ge.
    unfold calendarDayDifference in H2.
    pose proof (elapsed_gt_1_calendar tz today t) as [F _]. lia.
  - unfold staleByCalendar. rewrite E. apply Z.ltb_lt. lia.
Qed.

(** On a check-in recorded at local midnight the two rules agree. *)
Lemma needsReset_at_midnight r t :
  lastCheckInDate parseISO r = Some (Some t) -> timeOfDay tz t = 0 ->
  needsReset tz parseISO today r = staleByCalendar tz parseISO today r.
Proof.
  intros E Ht. rewrite (needsReset_at r t E). unfold staleByCalendar. rewrite E.
  unfold calendarDayDifference.
  pose proof (elapsed_gt_1_calendar tz today t) as [F G].
  destruct (Z.ltb_spec 1 (differenceInCalendarDaysMs tz today t)).
  - apply Z.ltb_lt. apply G. lia.
  - apply Z.ltb_ge. lia.
Qed.

Lemma stale_reached rows r :
  In r rows -> 0 < streak_count r -> needsReset tz parseISO today r = true ->
  child_id_in (classifiedIds tz parseISO today rows) r = true.
Proof.
  intros Hr Hs Hn. apply child_id_in_In, In_classifiedIds. exists r.
  repeat split; try assumption.
  unfold classified, streak_count_gt_0. rewrite Hn.
  apply andb_true_iff. split; [now apply Z.ltb_lt | reflexivity].
Qed.

Lemma unreached_kept rows r :
  In r rows -> 0 < streak_count r ->
  child_id_in (classifiedIds tz parseISO today rows) r = false ->
  needsReset tz parseISO today r = false.
Proof.
  intros Hr Hs Hi. destruct (needsReset tz parseISO today r) eqn:Hn; [| reflexivity].
  rewrite (stale_reached rows r Hr Hs Hn) in Hi. discriminate.
Qed.

(** With unique identifiers, the batched update reaches exactly the
    classified rows. *)
Lemma reached_iff_classified rows r :
  NoDup (map child_id rows) -> In r rows ->
  child_id_in (classifiedIds tz parseISO today rows) r
  = classified tz parseISO today r.
Proof.
  intros Hnd Hr.
  destruct (classified tz parseISO today r) eqn:Hc.
  - apply child_id_in_In, In_classifiedIds. now exists r.
  - destruct (child_id_in _ r) eqn:Hi; [| reflexivity].
    apply child_id_in_In, In_classifiedIds in Hi as (q & Hq & Hcq & E).
    rewrite (unique_child_id rows q r Hnd Hq Hr E) in Hcq. congruence.
Qed.

(** Whatever the identifiers, a row that still has a streak after the
    update is an untouched row outside the collected identifiers. *)
Lemma reset_in_streak_left ids rows r' :
  In r' (reset_in ids rows) -> 0 < streak_count r' ->
  In r' rows /\ child_id_in ids r' = false.
Proof.
  unfold reset_in. rewrite in_map_iff. intros (r & E & Hr) Hs.
  destruct (child_id_in ids r) eqn:Hi; subst r'.
  - simpl in Hs. lia.
  - now split.
Qed.

Lemma classifiedIds_reset_in rows :
  classifiedIds tz parseISO today
    (reset_in (classifiedIds tz parseISO today rows) rows) = [].
Proof.
  destruct (classifiedIds tz parseISO today (reset_in _ rows)) as [| id rest] eqn:E;
    [reflexivity | exfalso].
  assert (Hin : In id (classifiedIds tz parseISO today
                         (reset_in (classifiedIds tz parseISO today rows) rows)))
    by (rewrite E; now left).
  apply In_classifiedIds in Hin as (q & Hq & Hc & _).
  apply reset_in_streak_left in Hq as [Hq Hout];
    [| now apply classified_loaded].
  assert (Hi : child_id_in (classifiedIds tz parseISO today rows) q = true)
    by (apply child_id_in_In, In_classifiedIds; now exists q).
  congruence.
Qed.

Lemma readable_reset_in ids rows :
  forallb (readable parseISO) (filter streak_count_gt_0 rows) = true ->
  forallb (readable parseISO) (filter streak_count_gt_0 (reset_in ids rows)) = true.
Proof.
  intros H. apply forallb_forall. intros r' Hr'.
  apply filter_In in Hr' as [Hr' Hs]. apply Z.ltb_lt in Hs.
  apply reset_in_streak_left in Hr' as [Hr' _]; [| assumption].
  now apply (readable_loaded rows).
Qed.

End Rows.

(** ** The runs of the job, case by case *)

Section Runs.

Variable tz : Z.
Variable parseISO : string -> Date.
Variable net : Network.
Variable today : Z.

Local Abbreviation run := (correctExistingStreakCounts tz parseISO net today).
Local Abbreviation loaded db := (filter streak_count_gt_0 (child_progress db)).
Local Abbreviation ids db := (classifiedIds tz parseISO today (child_progress db)).

Lemma run_select_error db m :
  selectReply net = ReportsError m ->
  run db = (failure m, received SelectStreakCountGt0 db).
Proof.
  intros H. unfold run, correctExistingStreakCounts, body, bind,
    select_gt_streak_count_0.
  now rewrite H.
Qed.

Lemma run_select_rejects db e :
  selectReply net = Rejects e ->
  run db = (caught e, received SelectStreakCountGt0 db).
Proof.
  intros H. unfold run, correctExistingStreakCounts, body, bind,
    select_gt_streak_count_0.
  now rewrite H.
Qed.

Lemma run_unreadable db :
  selectReply net = Fulfils ->
  forallb (readable parseISO) (loaded db) = false ->
  run db = (failure "Invalid time value", received SelectStreakCountGt0 db).
Proof.
  intros H Hr. unfold run, correctExistingStreakCounts, body, bind,
    select_gt_streak_count_0, lift.
  rewrite H. simpl. now rewrite identify_unreadable.
Qed.

Lemma run_nothing db :
  selectReply net = Fulfils ->
  forallb (readable parseISO) (loaded db) = true ->
  ids db = [] ->
  run db = (noCorrections, received SelectStreakCountGt0 db).
Proof.
  intros H Hr Hi. unfold run, correctExistingStreakCounts, body, bind,
    select_gt_streak_count_0, lift.
  rewrite H. simpl. rewrite identify_readable by assumption.
  rewrite filter_classified. unfold ids, classifiedIds in Hi. now rewrite Hi.
Qed.

Lemma run_updates db :
  selectReply net = Fulfils ->
  forallb (readable parseISO) (loaded db) = true ->
  ids db <> [] ->
  run db =
  match updateReply net with
  | Fulfils =>
      (corrected (ids db),
       {| child_progress := reset_in (ids db) (child_progress db);
          requests := (requests db ++ [SelectStreakCountGt0])
                        ++ [UpdateStreakCount0In (ids db)] |})
  | ReportsError m =>
      (failure m,
       received (UpdateStreakCount0In (ids db)) (received SelectStreakCountGt0 db))
  | Rejects e =>
      (caught e,
       received (UpdateStreakCount0In (ids db)) (received SelectStreakCountGt0 db))
  end.
Proof.
  intros H Hr Hi. unfold run, correctExistingStreakCounts, body, bind,
    select_gt_streak_count_0, update_streak_count_0_in, lift.
  rewrite H. simpl. rewrite identify_readable by assumption.
  rewrite filter_classified. unfold ids, classifiedIds in *. simpl.
  destruct (map child_id _) as [| i rest]; [contradiction |].
  change (0 <? Z.of_nat (List.length (i :: rest))) with true. cbv iota.
  destruct (updateReply net); reflexivity.
Qed.

(** The outcome depends on the table, not on the log of earlier queries. *)
Lemma run_same_rows db1 db2 :
  child_progress db1 = child_progress db2 ->
  fst (run db1) = fst (run db2)
  /\ child_progress (snd (run db1)) = child_progress (snd (run db2)).
Proof.
  intros H. unfold run, correctExistingStreakCounts, body, bind,
    select_gt_streak_count_0, lift.
  destruct (selectReply net); simpl; auto.
  rewrite H. destruct (identify _ _ _ _ _); simpl; auto.
  destruct (0 <? _); simpl; auto.
  unfold update_streak_count_0_in.
  destruct (updateReply net); simpl; rewrite ?H; auto.
Qed.

(** Every run ends in one of three ways: a failure that leaves the table
    as it was, a success without a write, or a success after the batched
    update of the classified identifiers. *)
Lemma run_outcome db :
  (success (fst (run db)) = false
   /\ resetChildren (fst (run db)) = None
   /\ child_progress (snd (run db)) = child_progress db)
  \/ (run db = (noCorrections, received SelectStreakCountGt0 db)
      /\ forallb (readable parseISO) (loaded db) = true
      /\ ids db = [])
  \/ (run db = (corrected (ids db),
                {| child_progress := reset_in (ids db) (child_progress db);
                   requests := (requests db ++ [SelectStreakCountGt0])
                                 ++ [UpdateStreakCount0In (ids db)] |})
      /\ forallb (readable parseISO) (loaded db) = true
      /\ ids db <> []).
Proof.
  destruct (selectReply net) as [| m | e] eqn:Hsel.
  - destruct (forallb (readable parseISO) (loaded db)) eqn:Hr.
    + destruct (ids db) as [| i rest] eqn:Hi.
      * right; left. now rewrite run_nothing.
      * assert (Hne : ids db <> []) by (rewrite Hi; discriminate).
        pose proof (run_updates db Hsel Hr Hne) as E.
        destruct (updateReply net) as [| m | e].
        -- right; right. rewrite <- Hi. auto.
        -- left. rewrite E. auto.
        -- left. rewrite E. auto.
    + left. rewrite run_unreadable by assumption. auto.
  - left. rewrite (run_select_error db m Hsel). auto.
  - left. rewrite (run_select_rejects db e Hsel). auto.
Qed.

End Runs.

(** After a successful run, a later run with the same clock reading changes
    nothing, however the backend behaves then. *)
Lemma rerun_after_success tz parseISO net net' today db :
  success (fst (correctExistingStreakCounts tz parseISO net today db)) = true ->
  child_progress
    (snd (correctExistingStreakCounts tz parseISO net' today
            (snd (correctExistingStreakCounts tz parseISO net today db))))
  = child_progress (snd (correctExistingStreakCounts tz parseISO net today db)).
Proof.
  intros Hok.
  destruct (run_outcome tz parseISO net' today
              (snd (correctExistingStreakCounts tz parseISO net today db)))
    as [(_ & _ & Same) | [(E & _) | (E & _ & Hne)]].
  - assumption.
  - now rewrite E.
  - exfalso. apply Hne.
    destruct (run_outcome tz parseISO net today db)
      as [(F & _) | [(E1 & _ & Hi) | (E1 & _)]].
    + congruence.
    + rewrite E1. simpl. assumption.
    + rewrite E1. simpl. apply classifiedIds_reset_in.
Qed.

(** * The claims *)

(** C1.  The claim has the loop classify by the calendar-day difference,
    both endpoints aligned to midnight.  The loop aligns [today] only: a
    row checked in two calendar days back at 10:00 is stale by the calendar
    rule, yet [differenceInDays] counts one full day up to today's
    midnight, the row is not collected, no update is sent and its streak
    stays at 5. *)
Theorem C1_two_days_back_not_reset :
  IsoSample.parseISO Sample.utc "2024-03-10T10:00:00Z" = Some 1710064800000
  /\ calendarDayDifference Sample.utc Sample.today 1710064800000 = 2
  /\ staleByCalendar Sample.utc (IsoSample.parseISO Sample.utc) Sample.today
       Sample.childC = true
  /\ differenceInDays Sample.utc (todayStartOfDay Sample.utc Sample.today)
       (Some 1710064800000) = Some 1
  /\ classified Sample.utc (IsoSample.parseISO Sample.utc) Sample.today
       Sample.childC = false
  /\ Sample.run Sample.healthy [Sample.childC]
     = (noCorrections,
        {| child_progress := [Sample.childC];
           requests := [SelectStreakCountGt0] |}).
Proof. repeat split; vm_compute; reflexivity. Qed.

(** C2, as stated, fails: after a successful run a row checked in next
    week keeps its streak of 4, and its check-in is neither today nor
    yesterday. *)
Lemma C2_future_check_in_breaks_invariant :
  success (fst (Sample.run Sample.healthy [Sample.childE])) = true
  /\ ~ streakInvariant Sample.utc (IsoSample.parseISO Sample.utc) Sample.today
         (child_progress (snd (Sample.run Sample.healthy [Sample.childE]))).
Proof.
  split; [reflexivity |]. intros H.
  destruct (H Sample.childE) as [(t & E & F) | (t & E & F)];
    try (now left); try reflexivity;
    vm_compute in E; injection E as <-; vm_compute in F; discriminate.
Qed.

Section Claims.

Variable tz : Z.
Variable parseISO : string -> Date.
Variable net : Network.
Variable today : Z.

Local Abbreviation run := (correctExistingStreakCounts tz parseISO net today).

(** C2, amended.  After a successful run, a row that still has a positive
    streak has a check-in date, and that date is not three or more calendar
    days back (it may lie ahead); and every row that had a positive streak
    with no check-in date, or with one three or more calendar days back,
    ends with a streak of 0. *)
Theorem C2_streak_left_implies_recent db :
  success (fst (run db)) = true ->
  (forall r', In r' (child_progress (snd (run db))) -> 0 < streak_count r' ->
     exists t, lastCheckInDate parseISO r' = Some (Some t)
               /\ calendarDayDifference tz today t <= 2)
  /\ Forall2
       (fun r r' =>
          0 < streak_count r ->
          lastCheckInDate parseISO r = None
          \/ (exists t, lastCheckInDate parseISO r = Some (Some t)
                        /\ 3 <= calendarDayDifference tz today t) ->
          streak_count r' = 0)
       (child_progress db) (child_progress (snd (run db))).
Proof.
  intros Hok.
  assert (Hstale : forall r,
             lastCheckInDate parseISO r = None
             \/ (exists t, lastCheckInDate parseISO r = Some (Some t)
                           /\ 3 <= calendarDayDifference tz today t) ->
             needsReset tz parseISO today r = true).
  { intros r [E | (t & E & H)];
      [now apply needsReset_absent | now apply (needsReset_3_days _ _ _ r t)]. }
  assert (Hkept : forall r,
             In r (child_progress db) -> 0 < streak_count r ->
             forallb (readable parseISO)
               (filter streak_count_gt_0 (child_progress db)) = true ->
             child_id_in (classifiedIds tz parseISO today (child_progress db)) r = false ->
             exists t, lastCheckInDate parseISO r = Some (Some t)
                       /\ calendarDayDifference tz today t <= 2).
  { intros r Hr Hs Hread Hi.
    destruct (kept_row_recent tz parseISO today r) as (t & E & H).
    - now apply (readable_loaded parseISO (child_progress db)).
    - now apply (unreached_kept _ _ _ (child_progress db)).
    - exists t. split; [assumption | now apply recent_within_2_days]. }
  destruct (run_outcome tz parseISO net today db)
    as [(F & _) | [(E & Hr & Hi) | (E & Hr & Hi)]].
  - congruence.
  - rewrite E; simpl. split.
    + intros r Hin Hs. apply Hkept; try assumption. now rewrite Hi.
    + apply Forall2_refl_In. intros r Hin Hs St. exfalso.
      pose proof (stale_reached tz parseISO today _ r Hin Hs (Hstale r St)) as C.
      rewrite Hi in C. discriminate.
  - rewrite E; simpl. split.
    + intros r Hin Hs.
      apply reset_in_streak_left in Hin as [Hin Hout]; [| assumption].
      now apply Hkept.
    + eapply Forall2_weaken_In; [| apply Forall2_map_r].
      intros r r' Hin -> Hs St. simpl.
      rewrite (stale_reached tz parseISO today _ r Hin Hs (Hstale r St)).
      reflexivity.
Qed.

(** C3, amended.  When the read succeeds and the loop collects no
    identifier, the job sends no update, leaves the table as it was and
    returns success with the message "No streak count corrections needed"
    and no [resetChildren] field. *)
Theorem C3_nothing_to_correct db :
  selectReply net = Fulfils ->
  identify tz parseISO today (filter streak_count_gt_0 (child_progress db)) []
  = Normal [] ->
  success (fst (run db)) = true
  /\ message (fst (run db)) = Some "No streak count corrections needed"
  /\ resetChildren (fst (run db)) = None
  /\ error (fst (run db)) = None
  /\ requests (snd (run db)) = (requests db ++ [SelectStreakCountGt0])%list
  /\ child_progress (snd (run db)) = child_progress db.
Proof.
  intros Hsel Hid.
  unfold correctExistingStreakCounts, body, bind, select_gt_streak_count_0, lift.
  rewrite Hsel. simpl. rewrite Hid. simpl. auto 10.
Qed.

(** C4.  When the read succeeds, the loop collects at least one identifier
    and the backend reports an error on the batched update, no row is
    changed, and the job returns success = false with the reported
    message as [error]. *)
Theorem C4_write_failure_changes_nothing db ids m :
  selectReply net = Fulfils ->
  identify tz parseISO today (filter streak_count_gt_0 (child_progress db)) []
  = Normal ids ->
  ids <> [] ->
  updateReply net = ReportsError m ->
  child_progress (snd (run db)) = child_progress db
  /\ requests (snd (run db))
     = (requests db ++ [SelectStreakCountGt0; UpdateStreakCount0In ids])%list
  /\ success (fst (run db)) = false
  /\ resetChildren (fst (run db)) = None
  /\ error (fst (run db)) = Some m.
Proof.
  intros Hsel Hid Hne Hup.
  unfold correctExistingStreakCounts, body, bind, select_gt_streak_count_0,
    update_streak_count_0_in, lift.
  rewrite Hsel. simpl. rewrite Hid. simpl.
  destruct ids as [| i rest]; [contradiction |].
  change (0 <? Z.of_nat (List.length (i :: rest))) with true. cbv iota.
  rewrite Hup. simpl. rewrite <- app_assoc. auto 10.
Qed.

(** C5, amended.  When the backend reports an error on the read, the job
    returns success = false with the backend's message passed on as it
    is, sends no update and leaves the table as it was. *)
Theorem C5_read_failure db m :
  selectReply net = ReportsError m ->
  success (fst (run db)) = false
  /\ error (fst (run db)) = Some m
  /\ resetChildren (fst (run db)) = None
  /\ requests (snd (run db)) = (requests db ++ [SelectStreakCountGt0])%list
  /\ child_progress (snd (run db)) = child_progress db.
Proof.
  intros Hsel. rewrite (run_select_error tz parseISO net today db m Hsel).
  simpl. auto.
Qed.

(** C6.  With the same clock reading and the same backend behaviour, a
    second run leaves the table as the first run left it. *)
Theorem C6_idempotent db :
  child_progress (snd (run (snd (run db)))) = child_progress (snd (run db)).
Proof.
  destruct (run_outcome tz parseISO net today (snd (run db)))
    as [(_ & _ & Same) | [(E & _) | (E & _ & Hne)]].
  - assumption.
  - now rewrite E.
  - exfalso. apply Hne.
    destruct (run_outcome tz parseISO net today db)
      as [(F & _ & Same) | [(E1 & _ & Hi) | (E1 & _)]].
    + destruct (run_same_rows tz parseISO net today _ _ Same) as [R _].
      rewrite E in R. simpl in R. rewrite <- R in F. discriminate.
    + rewrite E1. simpl. assumption.
    + rewrite E1. simpl. apply classifiedIds_reset_in.
Qed.

(** C7.  In a table with one row per child identifier, a run creates and
    deletes no row; a row not classified for reset, and so every row
    checked in today or yesterday whatever its streak, is left as it was;
    a classified row changes in [streak_count] only, which becomes 0; no
    streak grows. *)
Theorem C7_frame db :
  NoDup (map child_id (child_progress db)) ->
  List.length (child_progress (snd (run db))) = List.length (child_progress db)
  /\ Forall2
       (fun r r' =>
          (r' = r \/ (classified tz parseISO today r = true
                      /\ r' = with_streak_count_0 r))
          /\ (classified tz parseISO today r = false -> r' = r)
          /\ (checkedInToday tz parseISO today r
              \/ checkedInYesterday tz parseISO today r -> r' = r)
          /\ child_id r' = child_id r
          /\ last_check_in r' = last_check_in r
          /\ other_columns r' = other_columns r
          /\ streak_count r' <= streak_count r)
       (child_progress db) (child_progress (snd (run db))).
Proof.
  intros Hnd.
  assert (Hsame : forall r : ChildProgress,
             (r = r \/ (classified tz parseISO today r = true
                        /\ r = with_streak_count_0 r))
             /\ (classified tz parseISO today r = false -> r = r)
             /\ (checkedInToday tz parseISO today r
                 \/ checkedInYesterday tz parseISO today r -> r = r)
             /\ child_id r = child_id r
             /\ last_check_in r = last_check_in r
             /\ other_columns r = other_columns r
             /\ streak_count r <= streak_count r).
  { intros r. repeat split; auto. lia. }
  destruct (run_outcome tz parseISO net today db)
    as [(_ & _ & Same) | [(E & _) | (E & _)]].
  - rewrite Same. split; [reflexivity |]. apply Forall2_refl_In. auto.
  - rewrite E; simpl. split; [reflexivity |]. apply Forall2_refl_In. auto.
  - rewrite E; simpl. split; [apply length_map |].
    eapply Forall2_weaken_In; [| apply Forall2_map_r].
    intros r r' Hin ->. simpl.
    rewrite (reached_iff_classified tz parseISO today _ r Hnd Hin).
    destruct (classified tz parseISO today r) eqn:Hc;
      [| repeat split; auto; lia].
    pose proof (classified_loaded tz parseISO today r Hc) as Hs.
    repeat split; simpl; auto; try lia; try discriminate.
    intros Hfresh. exfalso.
    pose proof (needsReset_today_or_yesterday tz parseISO today r Hfresh) as Hn.
    unfold classified in Hc. rewrite Hn, andb_false_r in Hc. discriminate.
Qed.


(** C9.  The job returns a result object on every input: what the [try]
    block returns when it completes, and otherwise success = false with
    the message of the thrown error, or "Unknown error occurred" when the
    thrown value is not an error.  The block throws when the read or the
    update rejects, and when a loaded row carries a check-in text that does
    not parse. *)
Theorem C9_never_throws db :
  (forall r, fst (body tz parseISO net today db) = Normal r -> fst (run db) = r)
  /\ (forall msg, fst (body tz parseISO net today db) = Throw (ThrownError msg) ->
        fst (run db) = {| success := false; message := None;
                          resetChildren := None; error := Some msg |})
  /\ (fst (body tz parseISO net today db) = Throw ThrownOther ->
        fst (run db) = {| success := false; message := None;
                          resetChildren := None;
                          error := Some "Unknown error occurred" |})
  /\ (forall e, selectReply net = Rejects e ->
        fst (body tz parseISO net today db) = Throw e)
  /\ (selectReply net = Fulfils ->
      forallb (readable parseISO)
        (filter streak_count_gt_0 (child_progress db)) = false ->
      fst (body tz parseISO net today db) = Throw (ThrownError "Invalid time value"))
  /\ (forall e i ids,
        selectReply net = Fulfils ->
        identify tz parseISO today
          (filter streak_count_gt_0 (child_progress db)) [] = Normal (i :: ids) ->
        updateReply net = Rejects e ->
        fst (body tz parseISO net today db) = Throw e).
Proof.
  unfold correctExistingStreakCounts.
  repeat split.
  - intros r H. destruct (body tz parseISO net today db) as [[r0 | e] db'];
      simpl in *; congruence.
  - intros msg H. destruct (body tz parseISO net today db) as [[r0 | e] db'];
      simpl in *; [discriminate |]. now injection H as ->.
  - intros H. destruct (body tz parseISO net today db) as [[r0 | e] db'];
      simpl in *; [discriminate |]. now injection H as ->.
  - intros e H. unfold body, bind, select_gt_streak_count_0. now rewrite H.
  - intros H Hr. unfold body, bind, select_gt_streak_count_0, lift.
    rewrite H. simpl. now rewrite identify_unreadable.
  - intros e i ids H Hid Hup.
    unfold body, bind, select_gt_streak_count_0, update_streak_count_0_in, lift.
    rewrite H. simpl. rewrite Hid. simpl. now rewrite Hup.
Qed.

(** C10.  In a table with one row per identifier, a row with a positive
    streak whose check-in is at or after the start of today counts zero or
    fewer elapsed days, is not classified for reset, is on no list of
    corrected children, and is in the table after the run as it was
    before. *)
Theorem C10_future_check_in_kept db r t :
  NoDup (map child_id (child_progress db)) ->
  In r (child_progress db) ->
  0 < streak_count r ->
  lastCheckInDate parseISO r = Some (Some t) ->
  startOfDayMs tz today <= t ->
  differenceInDaysMs tz (startOfDayMs tz today) t <= 0
  /\ classified tz parseISO today r = false
  /\ (forall l, resetChildren (fst (run db)) = Some l -> ~ In (child_id r) l)
  /\ In r (child_progress (snd (run db))).
Proof.
  intros Hnd Hin Hs Et Hfut.
  pose proof (elapsed_future tz today t Hfut) as Hd.
  assert (Hc : classified tz parseISO today r = false).
  { unfold classified. rewrite (needsReset_at tz parseISO today r t Et).
    replace (1 <? _) with false by (symmetry; apply Z.ltb_ge; lia).
    apply andb_false_r. }
  pose proof (reached_iff_classified tz parseISO today _ r Hnd Hin) as Hreach.
  rewrite Hc in Hreach.
  repeat split; try assumption.
  - intros l Hl Hil.
    destruct (run_outcome tz parseISO net today db)
      as [(_ & F & _) | [(E & _) | (E & _)]].
    + congruence.
    + rewrite E in Hl. discriminate.
    + rewrite E in Hl. simpl in Hl. injection Hl as <-.
      apply child_id_in_In in Hil. congruence.
  - destruct (run_outcome tz parseISO net today db)
      as [(_ & _ & Same) | [(E & _) | (E & _)]].
    + now rewrite Same.
    + now rewrite E.
    + rewrite E. simpl. unfold reset_in. apply in_map_iff.
      exists r. now rewrite Hreach.
Qed.

End Claims.

(** ** The claims on the sample data *)

(** C2, amended, on the sample table. *)
Lemma C2_witness :
  success (fst (Sample.run Sample.healthy
                  [Sample.childA; Sample.childB; Sample.childD; Sample.childE])) = true
  /\ forall r',
       In r' (child_progress
                (snd (Sample.run Sample.healthy
                        [Sample.childA; Sample.childB; Sample.childD; Sample.childE]))) ->
       0 < streak_count r' ->
       exists t, lastCheckInDate (IsoSample.parseISO Sample.utc) r' = Some (Some t)
                 /\ calendarDayDifference Sample.utc Sample.today t <= 2.
Proof.
  split; [reflexivity |].
  apply (C2_streak_left_implies_recent Sample.utc (IsoSample.parseISO Sample.utc)
           Sample.healthy Sample.today
           (Sample.table [Sample.childA; Sample.childB; Sample.childD; Sample.childE])).
  reflexivity.
Defined.

(** C3, as stated, fails: with nothing to correct the returned object has
    no [resetChildren] at all, not an empty list. *)
Lemma C3_no_list_when_nothing_to_correct :
  identify Sample.utc (IsoSample.parseISO Sample.utc) Sample.today
    (filter streak_count_gt_0 [Sample.childB]) [] = Normal []
  /\ success (fst (Sample.run Sample.healthy [Sample.childB])) = true
  /\ resetChildren (fst (Sample.run Sample.healthy [Sample.childB])) <> Some [].
Proof. repeat split; try reflexivity. vm_compute. discriminate. Qed.

(** C3, amended, on a table of fresh rows. *)
Lemma C3_witness :
  resetChildren (fst (Sample.run Sample.healthy [Sample.childB; Sample.childE])) = None
  /\ requests (snd (Sample.run Sample.healthy [Sample.childB; Sample.childE]))
     = [SelectStreakCountGt0].
Proof.
  destruct (C3_nothing_to_correct Sample.utc (IsoSample.parseISO Sample.utc)
              Sample.healthy Sample.today
              (Sample.table [Sample.childB; Sample.childE]))
    as (_ & _ & H & _ & Q & _); [reflexivity | reflexivity |].
  split; [exact H | exact Q].
Defined.

(** C4 on the sample table, the update refused with "permission denied". *)
Lemma C4_witness :
  child_progress (snd (Sample.run (Sample.writeDown "permission denied")
                         [Sample.childA; Sample.childB]))
  = [Sample.childA; Sample.childB]
  /\ error (fst (Sample.run (Sample.writeDown "permission denied")
                   [Sample.childA; Sample.childB]))
     = Some "permission denied".
Proof.
  destruct (C4_write_failure_changes_nothing Sample.utc
              (IsoSample.parseISO Sample.utc)
              (Sample.writeDown "permission denied") Sample.today
              (Sample.table [Sample.childA; Sample.childB]) ["A"]
              "permission denied")
    as (H & _ & _ & _ & E);
    [reflexivity | reflexivity | discriminate | reflexivity |].
  split; [exact H | exact E].
Defined.

(** C5, as stated, fails: the backend's message is passed on as it is, so
    an error reported with an empty message gives an empty [error]. *)
Lemma C5_empty_message_passed_on :
  selectReply (Sample.readDown "") = ReportsError ""
  /\ error (fst (Sample.run (Sample.readDown "") [Sample.childA])) = Some ""
  /\ ~ (exists msg,
          error (fst (Sample.run (Sample.readDown "") [Sample.childA])) = Some msg
          /\ msg <> "").
Proof.
  repeat split. intros (msg & E & H).
  vm_compute in E. injection E as <-. now apply H.
Qed.

(** C5 on the sample table, the read refused with "network down". *)
Lemma C5_witness :
  error (fst (Sample.run (Sample.readDown "network down") [Sample.childA]))
  = Some "network down"
  /\ snd (Sample.run (Sample.readDown "network down") [Sample.childA])
     = {| child_progress := [Sample.childA]; requests := [SelectStreakCountGt0] |}.
Proof.
  destruct (C5_read_failure Sample.utc (IsoSample.parseISO Sample.utc)
              (Sample.readDown "network down") Sample.today
              (Sample.table [Sample.childA]) "network down")
    as (_ & E & _); [reflexivity |].
  split; [exact E | reflexivity].
Defined.

(** C7 on the sample table. *)
Lemma C7_witness :
  Forall2
    (fun r r' =>
       (r' = r
        \/ (classified Sample.utc (IsoSample.parseISO Sample.utc) Sample.today r = true
            /\ r' = with_streak_count_0 r))
       /\ (classified Sample.utc (IsoSample.parseISO Sample.utc) Sample.today r = false
           -> r' = r)
       /\ (checkedInToday Sample.utc (IsoSample.parseISO Sample.utc) Sample.today r
           \/ checkedInYesterday Sample.utc (IsoSample.parseISO Sample.utc) Sample.today r
           -> r' = r)
       /\ child_id r' = child_id r
       /\ last_check_in r' = last_check_in r
       /\ other_columns r' = other_columns r
       /\ streak_count r' <= streak_count r)
    [Sample.childA; Sample.childB; Sample.childD]
    (child_progress (snd (Sample.run Sample.healthy
                            [Sample.childA; Sample.childB; Sample.childD]))).
Proof.
  apply (C7_frame Sample.utc (IsoSample.parseISO Sample.utc) Sample.healthy
           Sample.today (Sample.table [Sample.childA; Sample.childB; Sample.childD])).
  simpl. repeat constructor; simpl; intuition discriminate.
Defined.


(** C9 on a table with a check-in text that does not parse. *)
Lemma C9_witness :
  fst (Sample.run Sample.healthy [Sample.childA; Sample.childX])
  = failure "Invalid time value".
Proof.
  destruct (C9_never_throws Sample.utc (IsoSample.parseISO Sample.utc)
              Sample.healthy Sample.today
              (Sample.table [Sample.childA; Sample.childX]))
    as (_ & Herr & _ & _ & Hthrow & _).
  apply Herr, Hthrow; reflexivity.
Defined.

(** C10 on a row checked in next week. *)
Lemma C10_witness :
  classified Sample.utc (IsoSample.parseISO Sample.utc) Sample.today Sample.childE
  = false
  /\ In Sample.childE
       (child_progress (snd (Sample.run Sample.healthy [Sample.childA; Sample.childE]))).
Proof.
  destruct (C10_future_check_in_kept Sample.utc (IsoSample.parseISO Sample.utc)
              Sample.healthy Sample.today
              (Sample.table [Sample.childA; Sample.childE])
              Sample.childE 1710925200000)
    as (_ & Hc & _ & Hin).
  - simpl. repeat constructor; simpl; intuition discriminate.
  - right; now left.
  - reflexivity.
  - reflexivity.
  - vm_compute. discriminate.
  - split; [exact Hc | exact Hin].
Defined.

(** * More on the streak correction job *)

Section JobExtras.

Variable tz : Z.
Variable parseISO : string -> Date.
Variable net : Network.
Variable today : Z.

Local Abbreviation run := (correctExistingStreakCounts tz parseISO net today).

(** A run sends the read first and exactly once; it sends at most one
    update after it, only when the read succeeded, never with an empty
    list, and with the identifiers of the classified rows. *)
Theorem job_requests_shape db :
  requests (snd (run db)) = (requests db ++ [SelectStreakCountGt0])%list
  \/ (selectReply net = Fulfils
      /\ classifiedIds tz parseISO today (child_progress db) <> []
      /\ requests (snd (run db))
         = (requests db
            ++ [SelectStreakCountGt0;
                UpdateStreakCount0In
                  (classifiedIds tz parseISO today (child_progress db))])%list).
Proof.
  destruct (selectReply net) as [| m | e] eqn:Hsel.
  - destruct (forallb (readable parseISO)
                (filter streak_count_gt_0 (child_progress db))) eqn:Hr.
    + destruct (classifiedIds tz parseISO today (child_progress db))
        as [| i rest] eqn:Hi.
      * left. now rewrite run_nothing.
      * right. rewrite <- Hi.
        assert (Hne : classifiedIds tz parseISO today (child_progress db) <> [])
          by (rewrite Hi; discriminate).
        rewrite (run_updates tz parseISO net today db Hsel Hr Hne).
        repeat split; try assumption.
        destruct (updateReply net); simpl; now rewrite <- app_assoc.
    + left. now rewrite run_unreadable.
  - left. now rewrite (run_select_error tz parseISO net today db m Hsel).
  - left. now rewrite (run_select_rejects tz parseISO net today db e Hsel).
Qed.

(** One loaded row whose check-in text does not parse stops the whole
    run: the job returns the error "Invalid time value", sends no update
    and changes no row, whatever the other rows are. *)
Theorem job_unparseable_check_in_aborts db r :
  selectReply net = Fulfils ->
  In r (child_progress db) ->
  0 < streak_count r ->
  lastCheckInDate parseISO r = Some None ->
  run db = (failure "Invalid time value",
            {| child_progress := child_progress db;
               requests := (requests db ++ [SelectStreakCountGt0])%list |}).
Proof.
  intros Hsel Hin Hs Hbad.
  apply run_unreadable; [assumption |].
  destruct (forallb (readable parseISO)
              (filter streak_count_gt_0 (child_progress db))) eqn:Hr;
    [| reflexivity].
  pose proof (readable_loaded parseISO _ r Hr Hin Hs) as C.
  unfold readable in C. rewrite Hbad in C. discriminate.
Qed.

(** With a check-in that parses, the loop pushes the row exactly when the
    check-in instant lies two days of 24 hours or more before today's
    local midnight. *)
Theorem job_reset_threshold r t :
  lastCheckInDate parseISO r = Some (Some t) ->
  needsReset tz parseISO today r = true
  <-> t + 2 * MILLISECONDS_IN_DAY <= startOfDayMs tz today.
Proof.
  intros E. rewrite (needsReset_at tz parseISO today r t E), Z.ltb_lt.
  rewrite differenceInDaysMs_quot, quot_day_gt_1. lia.
Qed.

End JobExtras.

Lemma startOfDayMs_mono tz a b : a <= b -> startOfDayMs tz a <= startOfDayMs tz b.
Proof.
  intros H. rewrite !startOfDayMs_dayNumber. unfold dayNumber, localMs.
  pose proof (Z.div_le_mono (a + tz) (b + tz) MILLISECONDS_IN_DAY msPerDay_pos).
  pose proof msPerDay_pos. nia.
Qed.

Lemma needsReset_mono tz parseISO today today' r :
  today <= today' ->
  needsReset tz parseISO today r = true -> needsReset tz parseISO today' r = true.
Proof.
  intros Hle. unfold needsReset.
  destruct (lastCheckInDate parseISO r) as [[t |] |]; simpl; auto.
  rewrite !Z.ltb_lt, !differenceInDaysMs_quot, !quot_day_gt_1.
  pose proof (startOfDayMs_mono tz today today' Hle). lia.
Qed.

(** A row classified for reset at one clock reading is classified at every
    later one: the identifiers a run would collect only grow with time. *)
Theorem job_stale_stays_stale tz parseISO today today' rows id :
  today <= today' ->
  In id (classifiedIds tz parseISO today rows) ->
  In id (classifiedIds tz parseISO today' rows).
Proof.
  intros Hle Hin. apply In_classifiedIds in Hin as (q & Hq & Hc & E).
  apply In_classifiedIds. exists q. repeat split; try assumption.
  unfold classified in *. apply andb_true_iff in Hc as [Hs Hn].
  rewrite Hs. simpl. now apply (needsReset_mono tz parseISO today today').
Qed.

(** The job extras on the sample data. *)
Lemma job_unparseable_check_in_aborts_witness :
  fst (Sample.run Sample.healthy [Sample.childA; Sample.childX])
  = failure "Invalid time value".
Proof.
  exact (f_equal fst
           (job_unparseable_check_in_aborts Sample.utc
              (IsoSample.parseISO Sample.utc) Sample.healthy Sample.today
              (Sample.table [Sample.childA; Sample.childX]) Sample.childX
              eq_refl (or_intror (or_introl eq_refl)) eq_refl eq_refl)).
Defined.

Lemma job_reset_threshold_witness :
  needsReset Sample.utc (IsoSample.parseISO Sample.utc) Sample.today Sample.childA
  = true.
Proof.
  apply (job_reset_threshold Sample.utc (IsoSample.parseISO Sample.utc)
           Sample.today Sample.childA 1710006300000); [reflexivity |].
  vm_compute. discriminate.
Defined.

Lemma job_stale_stays_stale_witness :
  In "A" (classifiedIds Sample.utc (IsoSample.parseISO Sample.utc)
            (Sample.today + MILLISECONDS_IN_DAY) [Sample.childA; Sample.childB]).
Proof.
  apply (job_stale_stays_stale Sample.utc (IsoSample.parseISO Sample.utc)
           Sample.today (Sample.today + MILLISECONDS_IN_DAY)
           [Sample.childA; Sample.childB] "A").
  - vm_compute. discriminate.
  - now left.
Defined.

Lemma rerun_after_success_witness :
  child_progress
    (snd (correctExistingStreakCounts Sample.utc (IsoSample.parseISO Sample.utc)
            (Sample.writeDown "offline") Sample.today
            (snd (Sample.run Sample.healthy [Sample.childA; Sample.childB]))))
  = child_progress (snd (Sample.run Sample.healthy [Sample.childA; Sample.childB])).
Proof.
  apply (rerun_after_success Sample.utc (IsoSample.parseISO Sample.utc)
           Sample.healthy (Sample.writeDown "offline") Sample.today
           (Sample.table [Sample.childA; Sample.childB])).
  reflexivity.
Defined.

(** * Parent records *)

Section ParentFacts.

Import ParentData.

Ltac parent_unfold :=
  unfold fetchParentInfoById, createParentInfo, saveParentInfo,
    updateParentInfoFields, resolve, tryCatch, fetchParentInfoById_try,
    fetchParentInfoById_catch, createParentInfo_try, saveParentInfo_try,
    updateParentInfoFields_try, andThen, await, selectParent, getSession,
    write, writeCache, readCache, pure, send in *.

Lemma isDefined_false v : isDefined v = false -> v = JUndefined.
Proof. destruct v; simpl; congruence. Qed.

Lemma lookup_assign o k v k' :
  lookup (assign o k v) k' = if String.eqb k' k then v else lookup o k'.
Proof.
  induction o as [| [k0 v0] rest IH]; simpl.
  - reflexivity.
  - destruct (String.eqb_spec k k0) as [-> | Hk]; simpl.
    + destruct (String.eqb_spec k' k0); reflexivity.
    + rewrite IH. destruct (String.eqb_spec k' k0) as [-> | Hk'].
      * destruct (String.eqb_spec k0 k); [congruence | reflexivity].
      * reflexivity.
Qed.

Lemma hasOwn_false_lookup o k : hasOwn o k = false -> lookup o k = JUndefined.
Proof.
  induction o as [| [k0 v0] rest IH]; simpl; [reflexivity |].
  destruct (String.eqb k k0); simpl; [discriminate | assumption].
Qed.

Lemma hasOwn_In o k : hasOwn o k = true <-> In k (keys o).
Proof.
  unfold hasOwn, keys. rewrite existsb_exists, in_map_iff. split.
  - intros (p & Hp & E). apply String.eqb_eq in E. now exists p.
  - intros (p & E & Hp). exists p. split; [assumption |].
    rewrite E. apply String.eqb_refl.
Qed.

(** [{ ...a, ...b }], property by property: what [b] has wins, the rest
    is [a]'s. *)
Lemma lookup_spread b : forall a k,
  NoDup (keys b) ->
  lookup (spread a b) k = if hasOwn b k then lookup b k else lookup a k.
Proof.
  unfold spread.
  induction b as [| [k1 v1] rest IH]; intros a k Hnd; simpl; [reflexivity |].
  inversion Hnd as [| ? ? Hk1 Hrest]; subst.
  rewrite IH by assumption. rewrite lookup_assign.
  destruct (String.eqb_spec k k1) as [-> | Hk]; simpl.
  - destruct (hasOwn rest k1) eqn:Hown; [| reflexivity].
    apply hasOwn_In in Hown. contradiction.
  - reflexivity.
Qed.

Variable Cache : Type.
Variable getCachedParentInfo : Cache -> JsValue -> option Obj.
Variable hasErrorLock : Cache -> JsValue -> bool.
Variable setErrorLock : Cache -> JsValue -> Cache.
Variable updateParentCache : Cache -> JsValue -> Obj -> Cache.
Variable clearParentCache : Cache -> JsValue -> Cache.

Local Abbreviation fetch b :=
  (fetchParentInfoById Cache getCachedParentInfo hasErrorLock setErrorLock
     updateParentCache b).
Local Abbreviation create b :=
  (createParentInfo Cache getCachedParentInfo hasErrorLock setErrorLock
     updateParentCache clearParentCache b).
Local Abbreviation save b := (saveParentInfo Cache updateParentCache b).
Local Abbreviation updateFields b :=
  (updateParentInfoFields Cache getCachedParentInfo updateParentCache b).

(** [saveParentInfo] asks for the session before anything else and sends
    at most one update after it: only when a session exists whose user id
    is the non-empty [id] of the object given, only for that id, and never
    with an empty set of columns. *)
Theorem saveParentInfo_updates_only_own_record b info (w : World Cache) :
  sent (snd (save b info w)) = sent w
  \/ sent (snd (save b info w)) = (sent w ++ [GetSession])%list
  \/ exists uid,
       uid <> ""
       /\ lookup info "id" = JString uid
       /\ onGetSession b = SessionData (Some uid)
       /\ buildUpdate info <> []
       /\ sent (snd (save b info w))
          = (sent w ++ [GetSession;
                        UpdateParent (JString uid) (buildUpdate info) true])%list.
Proof.
  parent_unfold.
  destruct (lookup info "id") as [| | s |] eqn:Hid; simpl; auto.
  2: { destruct (onGetSession b) as [[uid |] | m | e]; simpl; auto. }
  destruct (String.eqb_spec s "") as [-> | Hs]; simpl; auto.
  destruct (onGetSession b) as [[uid |] | m | e]; simpl; auto.
  destruct (String.eqb_spec uid s) as [-> | Hne]; simpl; auto.
  destruct (buildUpdate info) as [| p rest] eqn:Hb; simpl; auto.
  right; right. exists s.
  repeat split; try assumption; try discriminate.
  destruct (onUpdate b); simpl; now rewrite <- app_assoc.
Qed.

(** [saveParentInfo] returns [true] exactly when the caller is signed in
    as the parent whose non-empty [id] the object carries and either no
    column is given or the update goes through. *)
Theorem saveParentInfo_true_iff b info (w : World Cache) :
  fst (save b info w) = true
  <-> exists uid,
        uid <> ""
        /\ lookup info "id" = JString uid
        /\ onGetSession b = SessionData (Some uid)
        /\ (buildUpdate info = [] \/ onUpdate b = Fulfils).
Proof.
  parent_unfold. split.
  - destruct (lookup info "id") as [| | s |] eqn:Hid; simpl; try discriminate.
    2: { destruct (onGetSession b) as [[uid |] | m | e]; simpl; discriminate. }
    destruct (String.eqb_spec s "") as [-> | Hs]; simpl; [discriminate |].
    destruct (onGetSession b) as [[uid |] | m | e]; simpl; try discriminate.
    destruct (String.eqb_spec uid s) as [-> | Hne]; simpl; [| discriminate].
    destruct (buildUpdate info) as [| p rest] eqn:Hb; simpl.
    + intros _. exists s. auto.
    + destruct (onUpdate b) eqn:Hup; simpl; try discriminate.
      intros _. exists s. auto.
  - intros (uid & Hne & Hid & Hses & Hsend). rewrite Hid. simpl.
    destruct (String.eqb_spec uid ""); [contradiction |]. simpl.
    rewrite Hses. simpl. rewrite String.eqb_refl. simpl.
    destruct Hsend as [-> | Hup]; [reflexivity |].
    destruct (buildUpdate info); simpl; [reflexivity |].
    now rewrite Hup.
Qed.

(** [saveParentInfo] writes to the cache exactly when it has sent an
    update that went through, and then stores the object as it was given;
    a save that returns [false], or that has no column to send, leaves the
    cache as it was. *)
Theorem saveParentInfo_cache b info (w : World Cache) :
  cache (snd (save b info w))
  = if fst (save b info w) && negb (Nat.eqb (List.length (buildUpdate info)) 0)
    then updateParentCache (cache w) (lookup info "id") info
    else cache w.
Proof.
  parent_unfold.
  destruct (lookup info "id") as [| | s |] eqn:Hid; simpl; auto.
  2: { destruct (onGetSession b) as [[uid |] | m | e]; simpl; auto. }
  destruct (String.eqb s ""); simpl; auto.
  destruct (onGetSession b) as [[uid |] | m | e]; simpl; auto.
  destruct (String.eqb uid s); simpl; auto.
  unfold keys. rewrite length_map.
  destruct (buildUpdate info) as [| p rest]; simpl; auto.
  destruct (onUpdate b); simpl; auto.
Qed.

(** The update object holds one column for each of the five fields that
    is not [undefined], in the order of the source and under the column's
    name, with the value given ([null] included); so it never holds [id],
    and a field that is missing or [undefined] is not sent. *)
Theorem buildUpdate_columns info :
  keys (buildUpdate info)
  = map snd (filter (fun fc => isDefined (lookup info (fst fc))) fieldColumns)
  /\ (forall field column,
        In (field, column) fieldColumns ->
        lookup (buildUpdate info) column = lookup info field)
  /\ hasOwn (buildUpdate info) "id" = false.
Proof.
  unfold buildUpdate, copyField, fieldColumns.
  destruct (isDefined (lookup info "name")) eqn:E1;
    destruct (isDefined (lookup info "relationship")) eqn:E2;
    destruct (isDefined (lookup info "email")) eqn:E3;
    destruct (isDefined (lookup info "emergencyContact")) eqn:E4;
    destruct (isDefined (lookup info "additionalInfo")) eqn:E5;
    simpl; rewrite ?E1, ?E2, ?E3, ?E4, ?E5; simpl;
    (split; [reflexivity |]); (split; [| reflexivity]);
    intros field column H;
    repeat (destruct H as [H | H];
            [injection H as <- <-; simpl;
             first [reflexivity | symmetry; now apply isDefined_false] |]);
    contradiction.
Qed.

(** [updateParentInfoFields] never asks for the session: it sends at most
    one update, for the id it is handed and with the same columns
    [saveParentInfo] would send, and returns [true] exactly when there was
    no column to send or the update went through. *)
Theorem updateParentInfoFields_requests b parentId updatedFields (w : World Cache) :
  sent (snd (updateFields b parentId updatedFields w))
  = (sent w
     ++ if Nat.eqb (List.length (buildUpdate updatedFields)) 0 then []
        else [UpdateParent parentId (buildUpdate updatedFields) false])%list
  /\ (fst (updateFields b parentId updatedFields w) = true
      <-> buildUpdate updatedFields = [] \/ onUpdate b = Fulfils).
Proof.
  parent_unfold. unfold keys. rewrite length_map.
  destruct (buildUpdate updatedFields) as [| p rest]; simpl.
  - rewrite app_nil_r. split; [reflexivity |]. split; auto.
  - destruct (onUpdate b) as [| m | e]; simpl.
    + destruct (getCachedParentInfo (cache w) parentId); simpl;
        (split; [reflexivity |]); split; auto.
    + split; [reflexivity |]. split; [discriminate |].
      intros [H | H]; discriminate.
    + split; [reflexivity |]. split; [discriminate |].
      intros [H | H]; discriminate.
Qed.

(** After an update that went through, [updateParentInfoFields] merges the
    fields into the cached object when there is one and leaves the cache
    alone when there is none.  In the merged object every own property of
    the fields wins, so a field given as [undefined] erases the cached
    value although it is not among the columns sent. *)
Theorem updateParentInfoFields_cache_merge b parentId updatedFields (w : World Cache) :
  onUpdate b = Fulfils ->
  buildUpdate updatedFields <> [] ->
  NoDup (keys updatedFields) ->
  cache (snd (updateFields b parentId updatedFields w))
  = match getCachedParentInfo (cache w) parentId with
    | Some cached =>
        updateParentCache (cache w) parentId (spread cached updatedFields)
    | None => cache w
    end
  /\ (forall cached k,
        lookup (spread cached updatedFields) k
        = if hasOwn updatedFields k then lookup updatedFields k
          else lookup cached k)
  /\ (forall field column,
        In (field, column) fieldColumns ->
        hasOwn updatedFields field = true ->
        lookup updatedFields field = JUndefined ->
        hasOwn (buildUpdate updatedFields) column = false
        /\ forall cached, lookup (spread cached updatedFields) field = JUndefined).
Proof.
  intros Hup Hne Hnd. split; [| split].
  - parent_unfold. unfold keys. rewrite length_map.
    destruct (buildUpdate updatedFields) as [| p rest]; [contradiction |].
    simpl. rewrite Hup. simpl.
    destruct (getCachedParentInfo (cache w) parentId); reflexivity.
  - intros cached k. now apply lookup_spread.
  - intros field column Hin Hown Hundef. split.
    + destruct (hasOwn (buildUpdate updatedFields) column) eqn:Hc; [| reflexivity].
      apply hasOwn_In in Hc.
      destruct (buildUpdate_columns updatedFields) as (Hkeys & _ & _).
      rewrite Hkeys in Hc. apply in_map_iff in Hc as ([f c] & E & Hf).
      simpl in E. subst c. apply filter_In in Hf as [Hf Hdef]. simpl in Hdef.
      assert (f = field).
      { unfold fieldColumns in Hin, Hf. simpl in Hin, Hf.
        repeat (destruct Hin as [Hin | Hin];
                [injection Hin as <- <-;
                 repeat (destruct Hf as [Hf | Hf];
                         [injection Hf as <-; try reflexivity; discriminate |]);
                 contradiction |]).
        contradiction. }
      subst f. rewrite Hundef in Hdef. discriminate.
    + intros cached. rewrite lookup_spread by assumption. now rewrite Hown.
Qed.

(** [fetchParentInfoById] answers from the cache, without a query and
    without touching anything, whenever the error lock is set or an object
    is cached; otherwise it sends exactly one query. *)
Theorem fetchParentInfoById_query_guard b userId (w : World Cache) :
  if hasErrorLock (cache w) userId
     || match getCachedParentInfo (cache w) userId with
        | Some _ => true
        | None => false
        end
  then fetch b userId w = (getCachedParentInfo (cache w) userId, w)
  else sent (snd (fetch b userId w)) = (sent w ++ [SelectParent userId])%list.
Proof.
  parent_unfold. simpl.
  destruct (hasErrorLock (cache w) userId); simpl; [reflexivity |].
  destruct (getCachedParentInfo (cache w) userId) as [info |] eqn:Hc; simpl;
    [reflexivity |].
  destruct (onSelect b) as [[row |] | m | e]; simpl; reflexivity.
Qed.

(** When the read fails, by a reported error or a rejected call, the
    error lock is set and the answer is what the cache then holds; on a
    cache that reports the lock it has just been given, a later fetch for
    the same user sends no query, whatever the backend would answer. *)
Theorem fetchParentInfoById_failure_then_locked b userId (w : World Cache) :
  hasErrorLock (cache w) userId = false ->
  getCachedParentInfo (cache w) userId = None ->
  (forall row, onSelect b <> SelectData row) ->
  hasErrorLock (setErrorLock (cache w) userId) userId = true ->
  fetch b userId w
  = (getCachedParentInfo (setErrorLock (cache w) userId) userId,
     {| cache := setErrorLock (cache w) userId;
        sent := (sent w ++ [SelectParent userId])%list |})
  /\ forall b',
       sent (snd (fetch b' userId (snd (fetch b userId w))))
       = (sent w ++ [SelectParent userId])%list.
Proof.
  intros Hlock Hcached Hfail Hlaw.
  assert (E : fetch b userId w
              = (getCachedParentInfo (setErrorLock (cache w) userId) userId,
                 {| cache := setErrorLock (cache w) userId;
                    sent := (sent w ++ [SelectParent userId])%list |})).
  { parent_unfold. simpl. rewrite Hlock, Hcached. simpl.
    destruct (onSelect b) as [row | m | e]; simpl;
      [now destruct (Hfail row) | reflexivity | reflexivity]. }
  split; [exact E |].
  intros b'. rewrite E. simpl.
  pose proof (fetchParentInfoById_query_guard b' userId
                {| cache := setErrorLock (cache w) userId;
                   sent := (sent w ++ [SelectParent userId])%list |}) as G.
  simpl in G. rewrite Hlaw in G. simpl in G. now rewrite G.
Qed.


(** Without a truthy [id] or a truthy [user_metadata.name],
    [createParentInfo] returns [null] at once: no query, no insert, the
    cache untouched. *)
Theorem createParentInfo_missing_user_data b user (w : World Cache) :
  truthy (get user "id") = false
  \/ truthy (get (get user "user_metadata") "name") = false ->
  create b user w = (None, w).
Proof.
  intros H. parent_unfold.
  destruct H as [-> | ->]; simpl; [reflexivity |].
  now rewrite orb_true_r.
Qed.

(** [createParentInfo] first looks the parent up and returns what it
    finds; it inserts only when the lookup gave nothing, once, and then
    the row carries the user's id and name, the relationship "Parent", the
    user's email or the empty string, and an empty emergency contact. *)
Theorem createParentInfo_inserts_only_when_absent b user (w : World Cache) :
  truthy (get user "id") = true ->
  truthy (get (get user "user_metadata") "name") = true ->
  match fst (fetch b (get user "id") w) with
  | Some existing =>
      create b user w = (Some existing, snd (fetch b (get user "id") w))
  | None =>
      sent (snd (create b user w))
      = (sent (snd (fetch b (get user "id") w))
         ++ [InsertParent (newParent user)])%list
      /\ lookup (newParent user) "relationship" = JString "Parent"
      /\ lookup (newParent user) "emergency_contact" = JString ""
      /\ (lookup (newParent user) "email" = get user "email"
          \/ lookup (newParent user) "email" = JString "")
  end.
Proof.
  intros Hid Hname.
  unfold createParentInfo, createParentInfo_try, resolve, andThen, await.
  rewrite Hid, Hname. simpl.
  destruct (fetch b (get user "id") w) as [[existing |] w1] eqn:F; simpl.
  - reflexivity.
  - unfold write, writeCache, pure, send.
    split; [destruct (onInsert b); reflexivity |].
    repeat split. unfold orElse.
    destruct (truthy (get user "email")); auto.
Qed.

(** [createParentInfo] cannot tell a failed read from an absent record:
    when the read reports an error and the cache has nothing for the user,
    before or after the lock is set, it goes on to insert. *)
Theorem createParentInfo_inserts_after_failed_read b user m (w : World Cache) :
  truthy (get user "id") = true ->
  truthy (get (get user "user_metadata") "name") = true ->
  hasErrorLock (cache w) (get user "id") = false ->
  getCachedParentInfo (cache w) (get user "id") = None ->
  onSelect b = SelectError m ->
  getCachedParentInfo (setErrorLock (cache w) (get user "id")) (get user "id") = None ->
  sent (snd (create b user w))
  = (sent w ++ [SelectParent (get user "id"); InsertParent (newParent user)])%list.
Proof.
  intros Hid Hname Hlock Hcached Hsel Hstill.
  pose proof (createParentInfo_inserts_only_when_absent b user w Hid Hname) as C.
  assert (F : fetch b (get user "id") w
              = (None, {| cache := setErrorLock (cache w) (get user "id");
                          sent := (sent w ++ [SelectParent (get user "id")])%list |})).
  { parent_unfold. simpl. rewrite Hlock, Hcached. simpl. rewrite Hsel. simpl.
    now rewrite Hstill. }
  rewrite F in C. simpl in C. destruct C as (C & _).
  rewrite C. now rewrite <- app_assoc.
Qed.

End ParentFacts.

(** * The child profiles tab *)

Section TabFacts.

Import ProfilesTab.

Ltac tab_unfold :=
  unfold fetchProfiles, fetchProfiles_resume, confirmDelete,
    confirmDelete_deleted, confirmDelete_refreshed, handleSaveRelationship,
    handleSaveRelationship_saved, handleSaveRelationship_refreshed, cleanup,
    handleDeleteProfile, handleCreateProfile, handleEditRelationship,
    relationshipDialogOpenChange, confirmDelete_finally,
    handleSaveRelationship_finally, refreshes, call, setDeleteDialogOpen,
    setProfileToDelete, setEditChildRelationship, setRelationshipValue,
    setHasInitialFetch, setFetchInProgress, setComponentMounted,
    deletedToast, deleteFailedToast, relationshipToast,
    relationshipFailedToast in *.

Lemma filter_isRefresh_other l e :
  isRefresh e = false -> filter isRefresh (l ++ [e]) = filter isRefresh l.
Proof.
  intros H. rewrite filter_app. simpl. rewrite H. apply app_nil_r.
Qed.

Ltac calm_crunch :=
  unfold calm; tab_unfold;
  repeat first
    [ exact I
    | discriminate
    | assumption
    | congruence
    | progress intros
    | progress simpl in *
    | progress unfold refreshes
    | split
    | rewrite filter_isRefresh_other by reflexivity
    | match goal with
      | Hm : componentMounted ?t = false,
        Hb : _ && componentMounted ?t = true |- _ =>
          rewrite Hm, andb_false_r in Hb; discriminate
      | Hm : componentMounted ?t = false |- context [componentMounted ?t] =>
          rewrite Hm
      | |- context [_ && false] => rewrite andb_false_r
      end
    | match goal with
      | |- context [match truthyText ?u with _ => _ end] =>
          destruct (truthyText u)
      | |- context [if ?b then _ else _] => destruct b eqn:?
      | H : context [if ?b then _ else _] |- _ => destruct b eqn:?
      end ].

Lemma fetchProfiles_calm user t :
  calm t (fst (fetchProfiles user t)) /\ quiet (snd (fetchProfiles user t)).
Proof. calm_crunch. Qed.

Lemma confirmDelete_calm user t :
  calm t (fst (confirmDelete user t)) /\ quiet (snd (confirmDelete user t)).
Proof. calm_crunch. Qed.

Lemma handleSaveRelationship_calm user t :
  calm t (fst (handleSaveRelationship user t))
  /\ quiet (snd (handleSaveRelationship user t)).
Proof. calm_crunch. Qed.

Lemma launch_allQuiet p others :
  quiet (snd p) ->
  Forall (fun resume => quiet (Await resume)) others ->
  allQuiet (launch p others) /\ tab (launch p others) = fst p.
Proof.
  intros Hq Ho. unfold allQuiet, launch.
  destruct (snd p) as [| resume] eqn:E; simpl; split; auto.
  apply Forall_app. split; [assumption |]. constructor; [exact Hq | constructor].
Qed.

Lemma Forall_without {A} (P : A -> Prop) l : forall n,
  Forall P l -> Forall P (without n l).
Proof.
  induction l as [| x rest IH]; intros n H; destruct n; simpl; auto.
  - now inversion H.
  - inversion H; subst. constructor; auto.
Qed.

Lemma step_allQuiet r e :
  allQuiet r -> allQuiet (step r e) /\ calm (tab r) (tab (step r e)).
Proof.
  intros Hq. destruct e; simpl.
  - destruct (fetchProfiles_calm user (tab r)) as [Hc Hk].
    destruct (launch_allQuiet (fetchProfiles user (tab r)) (pending r) Hk Hq)
      as [H1 H2].
    split; [assumption | now rewrite H2].
  - split; [assumption |]. unfold calm. tab_unfold. simpl. auto.
  - split; [assumption |]. unfold calm. tab_unfold. simpl. auto.
  - destruct (confirmDelete_calm user (tab r)) as [Hc Hk].
    destruct (launch_allQuiet (confirmDelete user (tab r)) (pending r) Hk Hq)
      as [H1 H2].
    split; [assumption | now rewrite H2].
  - split; [assumption |]. unfold calm. tab_unfold. simpl. auto.
  - split; [assumption |]. unfold calm. tab_unfold. simpl. auto.
  - split; [assumption |]. unfold calm. tab_unfold. simpl. auto.
  - destruct (handleSaveRelationship_calm user (tab r)) as [Hc Hk].
    destruct (launch_allQuiet (handleSaveRelationship user (tab r)) (pending r) Hk Hq)
      as [H1 H2].
    split; [assumption | now rewrite H2].
  - split; [assumption |]. unfold calm. tab_unfold.
    destruct open; simpl; auto.
  - split; [assumption |]. unfold calm. tab_unfold. simpl.
    intros Hm. split; [assumption |]. now apply filter_isRefresh_other.
  - destruct (nth_error (pending r) n) as [resume |] eqn:E.
    + assert (Hk : quiet (Await resume)).
      { unfold allQuiet in Hq. rewrite Forall_forall in Hq.
        apply Hq. eapply nth_error_In; eassumption. }
      simpl in Hk. destruct (Hk fulfilled (tab r)) as [Hc Hnext].
      destruct (launch_allQuiet (resume fulfilled (tab r))
                  (without n (pending r)) Hnext
                  (Forall_without _ _ n Hq)) as [H1 H2].
      split; [assumption | now rewrite H2].
    + split; [assumption |]. unfold calm. auto.
Qed.

Lemma run_allQuiet events : forall r, allQuiet r -> allQuiet (run events r).
Proof.
  unfold run. induction events as [| e rest IH]; intros r Hq; simpl;
    [assumption |].
  apply IH. now apply step_allQuiet.
Qed.

Lemma run_calm events : forall r,
  allQuiet r -> calm (tab r) (tab (run events r)).
Proof.
  unfold run. induction events as [| e rest IH]; intros r Hq; simpl.
  - unfold calm. auto.
  - destruct (step_allQuiet r e Hq) as [Hq' Hc].
    specialize (IH (step r e) Hq'). unfold calm in *. intros Hm.
    destruct (Hc Hm) as [Hm' Hr']. destruct (IH Hm') as [Hm'' Hr''].
    split; [assumption | congruence].
Qed.

(** Once the effect's cleanup has run, the component never calls
    [refreshChildProfiles] again, whatever is clicked and however the
    pending calls settle: nothing sets [componentMounted] back to true, and
    every refresh is guarded by it. *)
Theorem no_refresh_after_cleanup before after :
  refreshes (tab (run (before ++ EffectCleanup :: after) start))
  = refreshes (tab (run (before ++ [EffectCleanup]) start))
  /\ componentMounted (tab (run (before ++ EffectCleanup :: after) start)) = false.
Proof.
  assert (Hq : allQuiet (run (before ++ [EffectCleanup]) start)).
  { apply run_allQuiet. constructor. }
  assert (Hm : componentMounted (tab (run (before ++ [EffectCleanup]) start)) = false).
  { unfold run. rewrite fold_left_app. reflexivity. }
  replace (before ++ EffectCleanup :: after)%list
    with ((before ++ [EffectCleanup]) ++ after)%list
    by (rewrite <- app_assoc; reflexivity).
  unfold run at 1 3. rewrite fold_left_app.
  destruct (run_calm after _ Hq Hm) as [H1 H2]. split; assumption.
Qed.

(** With a profile chosen, [confirmDelete] ends, in every course the
    awaited calls and the rest of the component can take, with the dialog
    closed and the choice cleared; with none chosen it does nothing. *)
Theorem confirmDelete_always_closes user t :
  match truthyText (profileToDelete t) with
  | Some _ =>
      forall t', ends (confirmDelete user t) t' ->
                 deleteDialogOpen t' = false /\ profileToDelete t' = None
  | None => confirmDelete user t = (t, Done)
  end.
Proof.
  unfold confirmDelete.
  destruct (truthyText (profileToDelete t)) as [id |]; [| reflexivity].
  intros t' H. inversion H as [| ? ? deleted t1 ? H1]; subst; clear H.
  unfold confirmDelete_deleted in H1. destruct deleted.
  - destruct (truthyText user) as [uid |].
    + simpl in H1. destruct (componentMounted t1).
      * inversion H1 as [| ? ? refreshed t3 ? H3]; subst; clear H1.
        unfold confirmDelete_refreshed in H3.
        inversion H3; subst. split; reflexivity.
      * inversion H1; subst. split; reflexivity.
    + inversion H1; subst. split; reflexivity.
  - inversion H1; subst. split; reflexivity.
Qed.

(** When the deletion goes through and the refresh after it is rejected,
    the user is told both "Profile Deleted" and "Failed to delete profile":
    the calls are the deletion, the success toast, the refresh and the
    error toast, in that order. *)
Theorem confirmDelete_refresh_failure_shows_delete_error user userId id t :
  truthyText (profileToDelete t) = Some id ->
  truthyText user = Some userId ->
  componentMounted t = true ->
  snd (alone [true; false] (confirmDelete user t)) = Done
  /\ effects (fst (alone [true; false] (confirmDelete user t)))
     = (effects t ++ [DeleteChildProfile id; deletedToast;
                      RefreshChildProfiles userId; deleteFailedToast])%list
  /\ deleteDialogOpen (fst (alone [true; false] (confirmDelete user t))) = false.
Proof.
  intros Hsel Huser Hm. unfold confirmDelete. rewrite Hsel. simpl.
  unfold confirmDelete_deleted. rewrite Huser. simpl. rewrite Hm. simpl.
  repeat split. now rewrite <- !app_assoc.
Qed.

(** Saving with an empty relationship does nothing at all: opened for a
    child that has no relationship yet, the dialog stays open and no call
    and no toast is made when save is pressed before anything is typed. *)
Theorem save_relationship_needs_value user id relationship t :
  id <> "" ->
  truthyText relationship = None ->
  handleSaveRelationship user (handleEditRelationship id relationship t)
  = (handleEditRelationship id relationship t, Done)
  /\ relationshipDialogOpen (handleEditRelationship id relationship t) = true
  /\ effects (handleEditRelationship id relationship t) = effects t.
Proof.
  intros Hid Hrel.
  unfold handleSaveRelationship, relationshipDialogOpen, handleEditRelationship.
  rewrite Hrel. simpl.
  destruct (String.eqb_spec id ""); [contradiction |]. auto.
Qed.


End TabFacts.

(** * The child profiles list *)

Section ListFacts.

Import ProfilesList.

Lemma highlighted_card current p : highlighted (card current p) = isCurrent current p.
Proof. unfold highlighted, card. simpl. now destruct (isCurrent current p). Qed.

Lemma hasActiveBadge_card current p :
  hasActiveBadge (card current p) = isCurrent current p.
Proof.
  unfold hasActiveBadge, card. simpl. rewrite existsb_app.
  destruct (isCurrent current p); simpl; [reflexivity |].
  destruct (creationStatus p) as [s |]; [| reflexivity].
  destruct (String.eqb s ""); [reflexivity |].
  destruct (String.eqb s "completed"); reflexivity.
Qed.

Lemma offersMakeActive_card current p :
  offersMakeActive (card current p) = negb (isCurrent current p).
Proof. unfold offersMakeActive, card. simpl. now destruct (isCurrent current p). Qed.

Lemma count_current current profiles :
  NoDup (map id profiles) ->
  List.length (filter (isCurrent (Some current)) profiles)
  = if existsb (String.eqb current) (map id profiles) then 1%nat else 0%nat.
Proof.
  induction profiles as [| p rest IH]; simpl; intros Hnd; [reflexivity |].
  inversion Hnd as [| ? ? Hp Hrest]; subst.
  rewrite (String.eqb_sym current (id p)).
  destruct (String.eqb_spec (id p) current) as [E | E]; simpl.
  - rewrite IH by assumption.
    destruct (existsb (String.eqb current) (map id rest)) eqn:Hex; [| reflexivity].
    apply existsb_exists in Hex as (x & Hx & Ex). apply String.eqb_eq in Ex.
    subst. contradiction.
  - now apply IH.
Qed.

(** In a list of profiles with distinct ids exactly one card is marked
    active when the active child is among them, and none otherwise.  A
    card carries the "Active Profile" badge exactly when it has the
    highlight border, and offers "Make Active" exactly when it has not; a
    click on "Make Active" selects the card's own profile. *)
Theorem one_active_card current profiles :
  NoDup (map id profiles) ->
  List.length (filter highlighted (cards current profiles))
  = match current with
    | Some c => if existsb (String.eqb c) (map id profiles) then 1%nat else 0%nat
    | None => 0%nat
    end
  /\ Forall (fun c =>
               hasActiveBadge c = highlighted c
               /\ offersMakeActive c = negb (highlighted c)
               /\ forall action, In (MakeActive action) (buttons c) ->
                                 action = SetCurrentChildId (key c))
       (cards current profiles).
Proof.
  intros Hnd. split.
  - unfold cards.
    assert (E : forall l, List.length (filter highlighted (map (card current) l))
                          = List.length (filter (isCurrent current) l)).
    { induction l as [| p rest IH]; simpl; [reflexivity |].
      rewrite highlighted_card. destruct (isCurrent current p); simpl; now rewrite IH. }
    rewrite E. destruct current as [c |].
    + now apply count_current.
    + induction profiles; simpl; auto.
      apply IHprofiles. now inversion Hnd.
  - unfold cards. apply Forall_forall. intros c Hc.
    apply in_map_iff in Hc as (p & <- & _).
    rewrite hasActiveBadge_card, offersMakeActive_card, highlighted_card.
    repeat split. intros action Hin. unfold card in Hin. simpl in Hin.
    apply in_app_or in Hin as [Hin | Hin].
    + destruct (isCurrent current p); simpl in Hin; [contradiction |].
      destruct Hin as [Hin | []]. now injection Hin as <-.
    + destruct Hin as [Hin | [Hin | []]]; discriminate.
Qed.

End ListFacts.

(** * The further properties on sample data *)

(** A cached parent, an update that names [name] without a value and
    gives a new email: the name is not sent and is erased in the cache. *)
Lemma updateParentInfoFields_cache_merge_witness :
  ParentData.hasOwn
    (ParentData.buildUpdate
       [("name", ParentData.JUndefined);
        ("email", ParentData.JString "new@example.org")]) "name" = false
  /\ ParentData.lookup
       (ParentData.spread (ParentData.parentInfoOfRow ParentData.SampleCache.row)
          [("name", ParentData.JUndefined);
           ("email", ParentData.JString "new@example.org")]) "name"
     = ParentData.JUndefined.
Proof.
  destruct (updateParentInfoFields_cache_merge ParentData.SampleCache.T
              ParentData.SampleCache.getCachedParentInfo
              ParentData.SampleCache.updateParentCache
              ParentData.SampleCache.up (ParentData.JString "u1")
              [("name", ParentData.JUndefined);
               ("email", ParentData.JString "new@example.org")]
              (ParentData.SampleCache.world ParentData.SampleCache.empty))
    as (_ & _ & H).
  - reflexivity.
  - discriminate.
  - simpl. repeat constructor; simpl; intuition discriminate.
  - destruct (H "name" "name") as [H1 H2];
      [now left | reflexivity | reflexivity |].
    split; [exact H1 | apply H2].
Defined.

Lemma fetchParentInfoById_failure_then_locked_witness :
  ParentData.sent
    (snd (ParentData.SampleCache.fetch ParentData.SampleCache.up
            (ParentData.JString "u1")
            (snd (ParentData.SampleCache.fetch ParentData.SampleCache.readFails
                    (ParentData.JString "u1")
                    (ParentData.SampleCache.world ParentData.SampleCache.empty)))))
  = [ParentData.SelectParent (ParentData.JString "u1")].
Proof.
  exact (proj2
           (fetchParentInfoById_failure_then_locked ParentData.SampleCache.T
              ParentData.SampleCache.getCachedParentInfo
              ParentData.SampleCache.hasErrorLock
              ParentData.SampleCache.setErrorLock
              ParentData.SampleCache.updateParentCache
              ParentData.SampleCache.readFails (ParentData.JString "u1")
              (ParentData.SampleCache.world ParentData.SampleCache.empty)
              eq_refl eq_refl ltac:(intros row; discriminate) eq_refl)
           ParentData.SampleCache.up).
Defined.


Lemma createParentInfo_missing_user_data_witness :
  ParentData.SampleCache.create ParentData.SampleCache.fresh
    (ParentData.JObject [("id", ParentData.JString "u1");
                         ("user_metadata", ParentData.JObject [])])
    (ParentData.SampleCache.world ParentData.SampleCache.empty)
  = (None, ParentData.SampleCache.world ParentData.SampleCache.empty).
Proof.
  apply (createParentInfo_missing_user_data ParentData.SampleCache.T
           ParentData.SampleCache.getCachedParentInfo
           ParentData.SampleCache.hasErrorLock
           ParentData.SampleCache.setErrorLock
           ParentData.SampleCache.updateParentCache
           ParentData.SampleCache.clearParentCache).
  right. reflexivity.
Defined.

Lemma createParentInfo_inserts_only_when_absent_witness :
  ParentData.sent
    (snd (ParentData.SampleCache.create ParentData.SampleCache.fresh
            ParentData.SampleCache.user
            (ParentData.SampleCache.world ParentData.SampleCache.empty)))
  = [ParentData.SelectParent (ParentData.JString "u1");
     ParentData.InsertParent (ParentData.newParent ParentData.SampleCache.user)].
Proof.
  pose proof (createParentInfo_inserts_only_when_absent ParentData.SampleCache.T
                ParentData.SampleCache.getCachedParentInfo
                ParentData.SampleCache.hasErrorLock
                ParentData.SampleCache.setErrorLock
                ParentData.SampleCache.updateParentCache
                ParentData.SampleCache.clearParentCache
                ParentData.SampleCache.fresh ParentData.SampleCache.user
                (ParentData.SampleCache.world ParentData.SampleCache.empty)
                eq_refl eq_refl) as H.
  simpl in H. destruct H as (H & _). exact H.
Defined.

Lemma createParentInfo_inserts_after_failed_read_witness :
  ParentData.sent
    (snd (ParentData.SampleCache.create ParentData.SampleCache.readFails
            ParentData.SampleCache.user
            (ParentData.SampleCache.world ParentData.SampleCache.empty)))
  = [ParentData.SelectParent (ParentData.JString "u1");
     ParentData.InsertParent (ParentData.newParent ParentData.SampleCache.user)].
Proof.
  exact (createParentInfo_inserts_after_failed_read ParentData.SampleCache.T
           ParentData.SampleCache.getCachedParentInfo
           ParentData.SampleCache.hasErrorLock
           ParentData.SampleCache.setErrorLock
           ParentData.SampleCache.updateParentCache
           ParentData.SampleCache.clearParentCache
           ParentData.SampleCache.readFails ParentData.SampleCache.user "timeout"
           (ParentData.SampleCache.world ParentData.SampleCache.empty)
           eq_refl eq_refl eq_refl eq_refl eq_refl eq_refl).
Defined.

(** The delete dialog on the profile "c1", confirmed by the user "u1":
    the deletion goes through, the refresh is rejected. *)
Lemma confirmDelete_refresh_failure_shows_delete_error_witness :
  ProfilesTab.effects
    (fst (ProfilesTab.alone [true; false]
            (ProfilesTab.confirmDelete (Some "u1")
               (ProfilesTab.handleDeleteProfile "c1" ProfilesTab.mounted))))
  = [ProfilesTab.DeleteChildProfile "c1"; ProfilesTab.deletedToast;
     ProfilesTab.RefreshChildProfiles "u1"; ProfilesTab.deleteFailedToast].
Proof.
  destruct (confirmDelete_refresh_failure_shows_delete_error (Some "u1") "u1" "c1"
              (ProfilesTab.handleDeleteProfile "c1" ProfilesTab.mounted)
              eq_refl eq_refl eq_refl) as (_ & H & _).
  exact H.
Defined.

Lemma save_relationship_needs_value_witness :
  ProfilesTab.handleSaveRelationship (Some "u1")
    (ProfilesTab.handleEditRelationship "c1" None ProfilesTab.mounted)
  = (ProfilesTab.handleEditRelationship "c1" None ProfilesTab.mounted,
     ProfilesTab.Done).
Proof.
  destruct (save_relationship_needs_value (Some "u1") "c1" None ProfilesTab.mounted)
    as (H & _); [discriminate | reflexivity | exact H].
Defined.


(** Three profiles, the second one active. *)
Lemma one_active_card_witness :
  List.length
    (filter ProfilesList.highlighted
       (ProfilesList.cards (Some "c2")
          [{| ProfilesList.id := "c1"; ProfilesList.nickname := "Ann";
              ProfilesList.creationStatus := Some "completed" |};
           {| ProfilesList.id := "c2"; ProfilesList.nickname := "Ben";
              ProfilesList.creationStatus := Some "pending" |};
           {| ProfilesList.id := "c3"; ProfilesList.nickname := "Cy";
              ProfilesList.creationStatus := None |}]))
  = 1%nat.
Proof.
  destruct (one_active_card (Some "c2")
              [{| ProfilesList.id := "c1"; ProfilesList.nickname := "Ann";
                  ProfilesList.creationStatus := Some "completed" |};
               {| ProfilesList.id := "c2"; ProfilesList.nickname := "Ben";
                  ProfilesList.creationStatus := Some "pending" |};
               {| ProfilesList.id := "c3"; ProfilesList.nickname := "Cy";
                  ProfilesList.creationStatus := None |}]) as (H & _).
  - simpl. repeat constructor; simpl; intuition discriminate.
  - exact H.
Defined.
